(** * A shallow embedding of the RDA streaming client

    The development follows the two Python sources of the client:
    [rdatools.py] (the frame codec) and [rdaclient.py] (the [Client]
    facade and the [Streamer] worker process).  Python integers are
    unbounded, so sizes and counters are plain [Z]; byte buffers are
    [list byte]; wall-clock readings ([time.time()]) are abstracted to
    integer ticks.  Code that can raise returns a [res]; loops whose
    termination depends on the network or on the clock take fuel and
    answer [OutOfFuel] when it runs out. *)

From Stdlib Require Import ZArith List String Bool Lia.
From Stdlib.Strings Require Import Byte.
Import ListNotations.

Local Open Scope string_scope.
Local Open Scope list_scope.
Local Open Scope Z_scope.

(** ** Exceptions and results *)

(** The conditions [ringbuffer.BufferError] reports. *)
Inductive BufferErrorKind : Type :=
| NotInitialized
| NotYetAvailable
| Retired
| AlreadyInitialized.

(** The exceptions the two modules can raise.  The sources raise the
    generic [Exception] with a message; the other constructors are the
    built-in errors reached by the code paths modelled here. *)
Inductive exn : Type :=
| Exception (msg : string)
| TypeError
| ValueError
| AttributeError
| IOError
| BufferError (kind : BufferErrorKind).

Inductive res (A : Type) : Type :=
| Ret (a : A)
| Raise (e : exn)
| OutOfFuel.

Arguments Ret {A} a.
Arguments Raise {A} e.
Arguments OutOfFuel {A}.

(** A state-and-exception monad: the state reached when an exception is
    raised is kept, as it is for a Python object. *)
Definition M (St A : Type) : Type := St -> res A * St.

Definition ret {St A : Type} (a : A) : M St A := fun s => (Ret a, s).

Definition raise {St A : Type} (e : exn) : M St A := fun s => (Raise e, s).

Definition bind {St A B : Type} (m : M St A) (k : A -> M St B) : M St B :=
  fun s =>
    match m s with
    | (Ret a, s') => k a s'
    | (Raise e, s') => (Raise e, s')
    | (OutOfFuel, s') => (OutOfFuel, s')
    end.

Definition lift_res {St A : Type} (r : res A) : M St A := fun s => (r, s).

Definition get {St : Type} : M St St := fun s => (Ret s, s).

Definition reads {St A : Type} (f : St -> A) : M St A := fun s => (Ret (f s), s).

Definition modify {St : Type} (f : St -> St) : M St unit := fun s => (Ret tt, f s).

(** [try: ... except: handler]: a bare [except] catches everything. *)
Definition try_except {St A : Type} (m : M St A) (handler : M St A) : M St A :=
  fun s =>
    match m s with
    | (Raise _, s') => handler s'
    | other => other
    end.

Notation "x <- m ;; k" := (bind m (fun x => k))
  (at level 61, m at next level, right associativity).
Notation "m ;;; k" := (bind m (fun _ => k))
  (at level 61, right associativity).

(** ** Bytes and little-endian fields *)

Definition byte_val (b : byte) : Z := Z.of_N (Byte.to_N b).

Fixpoint le_uint (bs : list byte) : Z :=
  match bs with
  | [] => 0
  | b :: rest => byte_val b + 256 * le_uint rest
  end.

Definition le_uint32 (bs : list byte) : Z := le_uint (firstn 4 bs).

Definition le_int32 (bs : list byte) : Z :=
  let u := le_uint32 bs in
  if u <? 2147483648 then u else u - 4294967296.

Definition len {A : Type} (l : list A) : Z := Z.of_nat (List.length l).

(** [l[a:b]] for non-negative bounds. *)
Definition slice {A : Type} (a b : Z) (l : list A) : list A :=
  firstn (Z.to_nat (b - a)) (skipn (Z.to_nat a) l).

(** ** The socket

    A connected TCP socket is the sequence of segments the network still
    has to deliver; once the list is empty the peer has closed the
    connection and every further receive returns zero bytes. *)
Definition socket : Type := list (list byte).

(** [sock.recv_into(buffer)] with a buffer of [k] bytes, and the byte
    part of [sock.recv(k)]: at most [k] bytes of the next segment. *)
Definition recv_into (k : Z) : M socket (list byte) :=
  fun s =>
    match s with
    | [] => (Ret [], [])
    | c :: rest =>
        if len c <=? k then (Ret c, rest)
        else (Ret (firstn (Z.to_nat k) c), skipn (Z.to_nat k) c :: rest)
    end.

(** [sock.recv(k)], whose result the callers discard: a negative size is
    rejected by the socket module. *)
Definition recv (k : Z) : M socket unit :=
  if k <? 0 then raise ValueError else recv_into k ;;; ret tt.

(** ** rdadefs *)

Module rdadefs.

(** Modelled from the spec: rdadefs.py (the ctypes struct layouts and the
    message-type constants) is not among the sources.  The sizes, field
    offsets and discriminants follow the wire-format table of the
    specification: a 16-byte signature, a uint32 size and a uint32 type
    in the header; [nChannels : int32] and [samplingInterval : double]
    in the fixed body of a start message; [blockNumber : int32] and
    [nPoints : int32] in the fixed body of a data message. *)
Definition RDA_START_MSG : Z := 1.
Definition RDA_STOP_MSG : Z := 3.
Definition RDA_FLOAT_MSG : Z := 4.

Definition sizeof_c_double : Z := 8.
Definition sizeof_c_float : Z := 4.
Definition sizeof_hdr : Z := 24.
Definition sizeof_start : Z := 36.
Definition sizeof_data : Z := 32.

Record rda_msg_hdr_t : Type := mk_hdr {
  guid : list byte;
  nSize : Z;
  nType : Z
}.

Definition hdr_of_bytes (bs : list byte) : rda_msg_hdr_t :=
  {| guid := firstn 16 bs;
     nSize := le_uint32 (skipn 16 bs);
     nType := le_uint32 (skipn 20 bs) |}.

Record rda_msg_start_full_t : Type := mk_start {
  start_hdr : rda_msg_hdr_t;
  start_nChannels : Z;
  dSamplingInterval : list byte;
  dResolutions : list byte;
  sChannelNames : list byte
}.

Record rda_msg_data_full_t : Type := mk_data {
  data_hdr : rda_msg_hdr_t;
  nBlock : Z;
  nPoints : Z;
  fData : list byte;
  markers : list byte
}.

(** Modelled from the spec: [rda_msg_start_t.full(nChannels, stringLength)]
    builds the full message type, whose variable region holds one double
    per channel followed by the channel names; ctypes refuses a negative
    array length.  The value is the type's [varLength]. *)
Definition start_full (nChannels stringLength : Z) : res Z :=
  if (nChannels <? 0) || (stringLength <? 0) then Raise ValueError
  else Ret (nChannels * sizeof_c_double + stringLength).

(** Modelled from the spec: [rda_msg_data_t.full(nChannels, nPoints,
    markersLength)], with a variable region of [nChannels * nPoints]
    floats followed by the markers. *)
Definition data_full (nChannels nPoints markersLength : Z) : res Z :=
  if (nChannels * nPoints <? 0) || (markersLength <? 0) then Raise ValueError
  else Ret (nChannels * nPoints * sizeof_c_float + markersLength).

End rdadefs.

(** ** rdatools *)

Module rdatools.
Import rdadefs.

(** [check_received(n, msg)].  On a short read the source evaluates
    ['...' + 'should be %s bytes' % (n, sizeof(msg))]: the [%] operator
    binds tighter than [+], so formatting one placeholder with a pair
    fails with a TypeError before the intended Exception is built. *)
Definition check_received (n size : Z) : res unit :=
  if n =? size then Ret tt else Raise TypeError.

(** The receive loop shared by both readers:
    [n = 0; while n < varLength: n += s.recv_into(buf[fixed + n:])].
    [acc] is the part of the variable region filled so far. *)
Fixpoint read_var (fuel : nat) (varLength n : Z) (acc : list byte)
  : M socket (list byte) :=
  match fuel with
  | O => fun s => (OutOfFuel, s)
  | S fuel' =>
      if n <? varLength then
        chunk <- recv_into (varLength - n) ;;
        read_var fuel' varLength (n + len chunk) (acc ++ chunk)
      else ret acc
  end.

Definition rda_read_start_msg (fuel : nat) (hdr : rda_msg_hdr_t)
  : M socket rda_msg_start_full_t :=
  if nSize hdr <? sizeof_start then raise ValueError
  else
    rest <- recv_into (sizeof_start - sizeof_hdr) ;;
    lift_res (check_received (len rest) (sizeof_start - sizeof_hdr)) ;;;
    let nChannels := le_int32 rest in
    let stringLength :=
      nSize hdr - sizeof_start - nChannels * sizeof_c_double in
    varLength <- lift_res (start_full nChannels stringLength) ;;
    var <- read_var fuel varLength 0 [] ;;
    ret {| start_hdr := hdr;
           start_nChannels := nChannels;
           dSamplingInterval := skipn 4 rest;
           dResolutions := slice 0 (nChannels * sizeof_c_double) var;
           sChannelNames := skipn (Z.to_nat (nChannels * sizeof_c_double)) var |}.

Definition rda_read_data_msg (fuel : nat) (hdr : rda_msg_hdr_t) (nChannels : Z)
  : M socket rda_msg_data_full_t :=
  if nSize hdr <? sizeof_data then raise ValueError
  else
    rest <- recv_into (sizeof_data - sizeof_hdr) ;;
    lift_res (check_received (len rest) (sizeof_data - sizeof_hdr)) ;;;
    let nPoints := le_int32 (skipn 4 rest) in
    let markersLength :=
      nSize hdr - sizeof_data - nChannels * nPoints * sizeof_c_float in
    varLength <- lift_res (data_full nChannels nPoints markersLength) ;;
    var <- read_var fuel varLength 0 [] ;;
    ret {| data_hdr := hdr;
           nBlock := le_int32 rest;
           nPoints := nPoints;
           fData := slice 0 (nChannels * nPoints * sizeof_c_float) var;
           markers := skipn (Z.to_nat (nChannels * nPoints * sizeof_c_float)) var |}.

(** [for b1, b2 in zip(hdr.guid, rda.RDA_GUID): if b1 != b2: return False]
    and [return True] after the loop. *)
Fixpoint zip_all_equal (l1 l2 : list byte) : bool :=
  match l1, l2 with
  | b1 :: t1, b2 :: t2 => if Byte.eqb b1 b2 then zip_all_equal t1 t2 else false
  | _, _ => true
  end.

Definition validate_rda_guid (RDA_GUID : list byte) (hdr : rda_msg_hdr_t) : bool :=
  zip_all_equal (guid hdr) RDA_GUID.

End rdatools.

(** ** ringbuffer *)

Module ringbuffer.

(** One sample: a row of float32 bit patterns, one per channel. *)
Definition row : Type := list Z.

(** Modelled from the spec: ringbuffer.py is not among the sources.  The
    buffer keeps a monotonic count of the samples written
    ([nSamplesWritten]); [rows] is the whole history, of which only the
    last [bufSize] samples are still live. *)
Record RingBuffer : Type := mk_rb {
  is_initialized : bool;
  nChannels : Z;
  bufSize : Z;
  pocketSize : Z;
  rows : list row
}.

(** [RingBuffer()]. *)
Definition new : RingBuffer :=
  {| is_initialized := false; nChannels := 0; bufSize := 0;
     pocketSize := 0; rows := [] |}.

Definition nSamplesWritten (rb : RingBuffer) : Z := len (rows rb).

(** Modelled from the spec: [initialize] allocates the storage, resets
    the counters and fails if called twice. *)
Definition initialize (nCh size window : Z) (rb : RingBuffer) : res RingBuffer :=
  if is_initialized rb then Raise (BufferError AlreadyInitialized)
  else Ret {| is_initialized := true; nChannels := nCh; bufSize := size;
              pocketSize := window; rows := [] |}.

(** Modelled from the spec: [put] appends the block and advances the
    counter by its number of rows; it never fails. *)
Definition put_data (block : list row) (rb : RingBuffer) : RingBuffer :=
  {| is_initialized := is_initialized rb; nChannels := nChannels rb;
     bufSize := bufSize rb; pocketSize := pocketSize rb;
     rows := rows rb ++ block |}.

(** Modelled from the spec: [get(start, end)] fails with NotInitialized
    if the buffer was never set up, with NotYetAvailable if
    [end > total_written], with Retired if
    [start <= total_written - capacity], and otherwise returns the
    samples of [[start, end)]. *)
Definition get_data (sampleStart sampleEnd : Z) (rb : RingBuffer) : res (list row) :=
  if negb (is_initialized rb) then Raise (BufferError NotInitialized)
  else if nSamplesWritten rb <? sampleEnd then Raise (BufferError NotYetAvailable)
  else if sampleStart <=? nSamplesWritten rb - bufSize rb then Raise (BufferError Retired)
  else Ret (slice sampleStart sampleEnd (rows rb)).

End ringbuffer.

(** ** Logging *)

Inductive level : Type := DEBUG | INFO | WARNING.

(** A log record: logger name, level, message (the format string) and
    the numbers formatted into it. *)
Record LogEntry : Type := mk_log {
  logger : string;
  lvl : level;
  message : string;
  args : list Z
}.

(** ** rdaclient: the Client facade *)

Module Client.
Import rdadefs ringbuffer.

(** What happens around the client while it performs one blocking or
    observing action: the clock moves by [dt] ticks and the worker
    process appends [written] to the shared buffer. *)
Record Tick : Type := mk_tick {
  dt : Z;
  written : list row
}.

(** The client process: the fields of the [Client] object, the objects
    it shares with the worker (ring buffer, command queue, socket, the
    liveness of the last spawned [Streamer]) and its environment (clock
    and schedule of ticks). *)
Record State : Type := mk_state {
  buffer_size : Z;
  buffer_window : Z;
  start_msg : option rda_msg_start_full_t;
  streamer : option unit;
  streamer_alive : bool;
  buf : RingBuffer;
  q : list string;
  sock : socket;
  log : list LogEntry;
  clock : Z;
  sched : nat -> Tick;
  pos : nat
}.

Definition set_start_msg (m : option rda_msg_start_full_t) (st : State) : State :=
  mk_state (buffer_size st) (buffer_window st) m (streamer st)
    (streamer_alive st) (buf st) (q st) (sock st) (log st) (clock st)
    (sched st) (pos st).

Definition set_streamer (p : option unit) (alive : bool) (st : State) : State :=
  mk_state (buffer_size st) (buffer_window st) (start_msg st) p
    alive (buf st) (q st) (sock st) (log st) (clock st)
    (sched st) (pos st).

Definition set_buf (b : RingBuffer) (st : State) : State :=
  mk_state (buffer_size st) (buffer_window st) (start_msg st) (streamer st)
    (streamer_alive st) b (q st) (sock st) (log st) (clock st)
    (sched st) (pos st).

Definition set_q (c : list string) (st : State) : State :=
  mk_state (buffer_size st) (buffer_window st) (start_msg st) (streamer st)
    (streamer_alive st) (buf st) c (sock st) (log st) (clock st)
    (sched st) (pos st).

Definition set_sock (s : socket) (st : State) : State :=
  mk_state (buffer_size st) (buffer_window st) (start_msg st) (streamer st)
    (streamer_alive st) (buf st) (q st) s (log st) (clock st)
    (sched st) (pos st).

Definition set_log (l : list LogEntry) (st : State) : State :=
  mk_state (buffer_size st) (buffer_window st) (start_msg st) (streamer st)
    (streamer_alive st) (buf st) (q st) (sock st) l (clock st)
    (sched st) (pos st).

(** One tick of the environment.  Only a live worker writes. *)
Definition advance (st : State) : State :=
  let t := sched st (pos st) in
  mk_state (buffer_size st) (buffer_window st) (start_msg st) (streamer st)
    (streamer_alive st)
    (if streamer_alive st then put_data (written t) (buf st) else buf st)
    (q st) (sock st) (log st) (clock st + dt t) (sched st) (S (pos st)).

(** [Client(buffer_size, buffer_window)], placed in an environment. *)
Definition init (size window : Z) (s : socket) (now : Z)
    (schedule : nat -> Tick) : State :=
  {| buffer_size := size; buffer_window := window; start_msg := None;
     streamer := None; streamer_alive := false; buf := ringbuffer.new;
     q := []; sock := s; log := []; clock := now; sched := schedule;
     pos := O |}.

(** *** Primitive actions *)

Definition time_time : M State Z :=
  fun st => let st' := advance st in (Ret (clock st'), st').

Definition add_clock (d : Z) (st : State) : State :=
  mk_state (buffer_size st) (buffer_window st) (start_msg st) (streamer st)
    (streamer_alive st) (buf st) (q st) (sock st) (log st) (clock st + d)
    (sched st) (pos st).

(** [time.sleep(d)]: at least [d] ticks pass; Python 2 rejects a
    negative duration with an IOError. *)
Definition time_sleep (d : Z) : M State unit :=
  fun st =>
    if d <? 0 then (Raise IOError, st)
    else (Ret tt, add_clock d (advance st)).

(** The [last_sample] property: [self.__buf.nSamplesWritten]. *)
Definition last_sample : M State Z :=
  fun st => let st' := advance st in (Ret (nSamplesWritten (buf st')), st').

(** [self.__buf.get_data(sampleStart, sampleEnd)]. *)
Definition buf_get_data (sampleStart sampleEnd : Z) : M State (list row) :=
  fun st =>
    let st' := advance st in
    (ringbuffer.get_data sampleStart sampleEnd (buf st'), st').

Definition on_sock {A : Type} (m : M socket A) : M State A :=
  fun st => let '(r, s') := m (sock st) in (r, set_sock s' st).

Definition logging (l : level) (msg : string) (a : list Z) : M State unit :=
  modify (fun st => set_log (log st ++ [mk_log "rdaclient" l msg a]) st).

Definition q_put (c : string) : M State unit :=
  modify (fun st => set_q (q st ++ [c]) st).

(** [self.__streamer.is_alive()]: an attribute error when no worker
    object exists yet. *)
Definition streamer_is_alive : M State bool :=
  fun st =>
    match streamer st with
    | None => (Raise AttributeError, st)
    | Some _ => (Ret (streamer_alive st), st)
    end.

(** The [is_streaming] property. *)
Definition is_streaming : M State bool :=
  try_except streamer_is_alive (ret false).

(** [Streamer(self.q, self.sock.fileno(), self.__buf.raw)], marked
    daemonic and started. *)
Definition spawn_streamer : M State unit :=
  modify (set_streamer (Some tt) true).

(** [self.__streamer.join()] returns once the worker has exited. *)
Definition streamer_join : M State unit :=
  modify (fun st => set_streamer (streamer st) false st).

Section Methods.

(** The signature constant [rdadefs.RDA_GUID] and the numeric
    [code] carried by each [BufferError]; both are declared in modules
    that are not among the sources. *)
Variable RDA_GUID : list byte.
Variable code : BufferErrorKind -> Z.

Inductive loop_exit : Type := Broke | Expired.

(** The dispatch on the message type inside the handshake loop.  The
    result tells whether the loop was left through [break].  The text
    that [startmsg2string] adds to the log record is left out. *)
Definition handshake_dispatch (fuel : nat) (hdr : rda_msg_hdr_t) : M State bool :=
  cached <- reads start_msg ;;
  if nType hdr =? RDA_START_MSG then
    msg <- on_sock (rdatools.rda_read_start_msg fuel hdr) ;;
    modify (set_start_msg (Some msg)) ;;;
    logging INFO "start message received, " [] ;;;
    ret true
  else if (nType hdr =? RDA_FLOAT_MSG)
          && match cached with Some _ => true | None => false end then
    on_sock (recv (nSize hdr - sizeof_hdr)) ;;;
    logging INFO "trying to resume previous session..." [] ;;;
    ret true
  else
    on_sock (recv (nSize hdr - sizeof_hdr)) ;;;
    logging INFO "skipped package (type = %s)" [nType hdr] ;;;
    ret false.

(** The body of the handshake loop: read a header, check its length,
    check its signature, dispatch on its type. *)
Definition handshake_body (fuel : nat) : M State bool :=
  bytes <- on_sock (recv_into sizeof_hdr) ;;
  lift_res (rdatools.check_received (len bytes) sizeof_hdr) ;;;
  let hdr := hdr_of_bytes bytes in
  (if rdatools.validate_rda_guid RDA_GUID hdr then ret tt
   else logging WARNING "packet with unknown GUID reveived" []) ;;;
  handshake_dispatch fuel hdr.

(** The handshake loop of [start_streaming]:
    [while now - then < timeout: ...; now = time.time()]. *)
Fixpoint handshake_loop (fuel : nat) (timeout then_ now : Z) : M State loop_exit :=
  match fuel with
  | O => fun st => (OutOfFuel, st)
  | S fuel' =>
      if now - then_ <? timeout then
        broke <- handshake_body fuel ;;
        if broke : bool then ret Broke
        else
          now' <- time_time ;;
          handshake_loop fuel' timeout then_ now'
      else ret Expired
  end.

(** The statements of [start_streaming] after the loop. *)
Definition finish_start : M State unit :=
  st <- get ;;
  (if negb (is_initialized (buf st)) then
     logging INFO "initializing buffer..." [] ;;;
     match start_msg st with
     | None => raise AttributeError
     | Some m =>
         b <- lift_res (initialize (start_nChannels m) (buffer_size st)
                          (buffer_window st) (buf st)) ;;
         modify (set_buf b)
     end
   else ret tt) ;;;
  logging INFO "spawning a streamer process..." [] ;;;
  spawn_streamer.

(** The statements of [start_streaming] from the first log record to
    the end of the loop; the result tells how the loop was left. *)
Definition await_start (fuel : nat) (timeout : Z) : M State loop_exit :=
  logging INFO "waiting for an rda start message..." [] ;;;
  then_ <- time_time ;;
  now <- time_time ;;
  handshake_loop fuel timeout then_ now.

Definition start_streaming (fuel : nat) (timeout : Z) : M State unit :=
  b <- is_streaming ;;
  if b then raise (Exception "already streaming")
  else
    await_start fuel timeout ;;;
    finish_start.

Definition stop_streaming (write_timelog : bool) : M State unit :=
  b <- is_streaming ;;
  if negb b then raise (Exception "already stopped")
  else
    q_put "stop" ;;;
    (if write_timelog then q_put "save_timelog" else ret tt) ;;;
    streamer_join ;;;
    logging INFO "stopped streaming" [].

(** [get_data]: any failure of the buffer read becomes [None]. *)
Definition get_data (sampleStart sampleEnd : Z) : M State (option (list row)) :=
  try_except (d <- buf_get_data sampleStart sampleEnd ;; ret (Some d)) (ret None).

(** The polling loop of [wait]. *)
Fixpoint wait_loop (fuel : nat) (sampleStart sampleEnd timeout sleep then_ now : Z)
  : M State (option (list row)) :=
  match fuel with
  | O => fun st => (OutOfFuel, st)
  | S fuel' =>
      if now - then_ <? timeout then
        fun st =>
          match buf_get_data sampleStart sampleEnd st with
          | (Ret d, st') => (Ret (Some d), st')
          | (Raise (BufferError e), st') =>
              if negb (code e =? 3) then (Ret None, st')
              else
                (time_sleep sleep ;;;
                 now' <- time_time ;;
                 wait_loop fuel' sampleStart sampleEnd timeout sleep then_ now') st'
          | (Raise e, st') => (Raise e, st')
          | (OutOfFuel, st') => (OutOfFuel, st')
          end
      else ret None
  end.

Definition wait (fuel : nat) (sampleStart sampleEnd timeout sleep : Z)
  : M State (option (list row)) :=
  b <- is_streaming ;;
  if negb b then raise (Exception "nothing to wait, start streaming first")
  else
    then_ <- time_time ;;
    now <- time_time ;;
    wait_loop fuel sampleStart sampleEnd timeout sleep then_ now.

Definition poll (fuel : nat) (nSamples timeout sleep : Z)
  : M State (option (list row)) :=
  b <- is_streaming ;;
  if negb b then raise (Exception "nothing to wait, start streaming first")
  else
    ls <- last_sample ;;
    r <- wait fuel ls (ls + 1) timeout sleep ;;
    match r with
    | Some _ =>
        ls' <- last_sample ;;
        get_data (ls' - nSamples) ls'
    | None => ret None
    end.

End Methods.

End Client.

(** ** rdaclient: the Streamer worker process *)

Module Streamer.
Import rdadefs ringbuffer.

(** The worker process: the fields of the [Streamer] object, the objects
    shared with the client and the environment.  [arrivals k] are the
    commands the client has put on the queue by the time of the [k]-th
    [get]; [clock k] is the [k]-th reading of [time.time()]; [saved]
    lists the arrays written by [np.save]. *)
Record State : Type := mk_state {
  sock : socket;
  q : list string;
  buf : RingBuffer;
  timelog : list Z;
  saved : list (list Z);
  log : list LogEntry;
  arrivals : nat -> list string;
  n_gets : nat;
  clock : nat -> Z;
  n_reads : nat
}.

Definition set_sock (s : socket) (st : State) : State :=
  mk_state s (q st) (buf st) (timelog st) (saved st) (log st)
    (arrivals st) (n_gets st) (clock st) (n_reads st).

Definition set_q (c : list string) (st : State) : State :=
  mk_state (sock st) c (buf st) (timelog st) (saved st) (log st)
    (arrivals st) (n_gets st) (clock st) (n_reads st).

Definition set_buf (b : RingBuffer) (st : State) : State :=
  mk_state (sock st) (q st) b (timelog st) (saved st) (log st)
    (arrivals st) (n_gets st) (clock st) (n_reads st).

Definition set_timelog (t : list Z) (st : State) : State :=
  mk_state (sock st) (q st) (buf st) t (saved st) (log st)
    (arrivals st) (n_gets st) (clock st) (n_reads st).

Definition set_saved (f : list (list Z)) (st : State) : State :=
  mk_state (sock st) (q st) (buf st) (timelog st) f (log st)
    (arrivals st) (n_gets st) (clock st) (n_reads st).

Definition set_log (l : list LogEntry) (st : State) : State :=
  mk_state (sock st) (q st) (buf st) (timelog st) (saved st) l
    (arrivals st) (n_gets st) (clock st) (n_reads st).

(** [collections.deque(maxlen=...)]: [append] adds on the right and,
    when that exceeds [maxlen], drops one element on the left. *)
Definition timelog_maxlen : Z := 100000.

Definition deque_append (maxlen : Z) (x : Z) (d : list Z) : list Z :=
  let d' := d ++ [x] in
  if maxlen <? len d' then tl d' else d'.

(** [Streamer(q, fd, raw)]: the worker attaches to the client's queue,
    socket and buffer and starts with an empty time log. *)
Definition init (s : socket) (c : list string) (raw : RingBuffer)
    (arr : nat -> list string) (clk : nat -> Z) : State :=
  {| sock := s; q := c; buf := raw; timelog := []; saved := []; log := [];
     arrivals := arr; n_gets := O; clock := clk; n_reads := O |}.

(** *** Primitive actions *)

Definition on_sock {A : Type} (m : M socket A) : M State A :=
  fun st => let '(r, s') := m (sock st) in (r, set_sock s' st).

Definition logging (l : level) (msg : string) (a : list Z) : M State unit :=
  modify (fun st => set_log (log st ++ [mk_log "data_streamer" l msg a]) st).

Definition time_time : M State Z :=
  fun st =>
    (Ret (clock st (n_reads st)),
     mk_state (sock st) (q st) (buf st) (timelog st) (saved st) (log st)
       (arrivals st) (n_gets st) (clock st) (S (n_reads st))).

Definition q_put (c : string) : M State unit :=
  modify (fun st => set_q (q st ++ [c]) st).

(** [time.sleep(.5)]: the passing of time changes nothing in the
    worker's own state; what the client does meanwhile shows at the
    next [get]. *)
Definition pause : M State unit := ret tt.

(** [self.q.get(False)]: the oldest command, or the [Empty] exception
    (modelled by [None]) when nothing is queued. *)
Definition q_get_nowait : M State (option string) :=
  fun st =>
    let st' :=
      mk_state (sock st) (q st ++ arrivals st (n_gets st)) (buf st) (timelog st)
        (saved st) (log st) (arrivals st) (S (n_gets st)) (clock st) (n_reads st) in
    match q st' with
    | [] => (Ret None, st')
    | c :: rest => (Ret (Some c), set_q rest st')
    end.

(** [np.frombuffer(bytes, 'float32')]: one value per four bytes. *)
Fixpoint frombuffer (fuel : nat) (bs : list byte) : list Z :=
  match fuel with
  | O => []
  | S fuel' =>
      match bs with
      | [] => []
      | _ => le_uint32 bs :: frombuffer fuel' (skipn 4 bs)
      end
  end.

Fixpoint rows_of (fuel : nat) (n : nat) (data : list Z) : list row :=
  match fuel with
  | O => []
  | S fuel' =>
      match data with
      | [] => []
      | _ => firstn n data :: rows_of fuel' n (skipn n data)
      end
  end.

(** [np.reshape(data, (-1, nChannels))]: the row length must be positive
    and divide the number of values. *)
Definition reshape (data : list Z) (nCh : Z) : res (list row) :=
  if nCh <=? 0 then Raise ValueError
  else if negb (len data mod nCh =? 0) then Raise ValueError
  else Ret (rows_of (List.length data) (Z.to_nat nCh) data).

(** *** Methods *)

Definition put_datablock (msg : rda_msg_data_full_t) : M State unit :=
  let data := frombuffer (List.length (fData msg)) (fData msg) in
  nCh <- reads (fun st => nChannels (buf st)) ;;
  block <- lift_res (reshape data nCh) ;;
  modify (fun st => set_buf (put_data block (buf st)) st) ;;;
  now <- time_time ;;
  modify (fun st => set_timelog (deque_append timelog_maxlen now (timelog st)) st) ;;;
  logging DEBUG "put data: rda block #%s, %s samples, time: %.3f"
    [nBlock msg; nPoints msg; now].

Definition get_cmd : M State (option string) := q_get_nowait.

(** [np.save(self.timelog_fname, np.array(self.timelog))], taken to
    succeed. *)
Definition save_timelog : M State unit :=
  modify (fun st => set_saved (saved st ++ [timelog st]) st).

(** [execute_cmd]: the dictionary of known commands holds
    ['save_timelog'] only. *)
Definition execute_cmd (cmd : option string) : M State unit :=
  match cmd with
  | Some c =>
      if String.eqb c "save_timelog" then
        try_except save_timelog
          (logging WARNING "unable to execute command %s" [])
      else ret tt
  | None => ret tt
  end.

Definition is_stop (cmd : option string) : bool :=
  match cmd with
  | Some c => String.eqb c "stop"
  | None => false
  end.

Section Run.

Variable RDA_GUID : list byte.

(** The dispatch on the message type inside the streaming loop. *)
Definition run_dispatch (fuel : nat) (hdr : rda_msg_hdr_t) : M State unit :=
  if nType hdr =? RDA_FLOAT_MSG then
    nCh <- reads (fun st => nChannels (buf st)) ;;
    msg <- on_sock (rdatools.rda_read_data_msg fuel hdr nCh) ;;
    put_datablock msg
  else if nType hdr =? 10000 then
    on_sock (recv (nSize hdr - sizeof_hdr))
  else if nType hdr =? RDA_STOP_MSG then
    logging INFO "stop message received, stopping..." [] ;;;
    q_put "stop" ;;;
    pause
  else
    on_sock (recv (nSize hdr - sizeof_hdr)) ;;;
    logging INFO "skipped package (type = %s)" [nType hdr].

(** One pass through the body of the streaming loop, up to and
    including the [get_cmd] that ends it. *)
Definition run_body (fuel : nat) : M State (option string) :=
  bytes <- on_sock (recv_into sizeof_hdr) ;;
  lift_res (rdatools.check_received (len bytes) sizeof_hdr) ;;;
  let hdr := hdr_of_bytes bytes in
  (if rdatools.validate_rda_guid RDA_GUID hdr then ret tt
   else logging WARNING "packet with unknown GUID reveived" []) ;;;
  run_dispatch fuel hdr ;;;
  get_cmd.

(** [while cmd != 'stop': ...]. *)
Fixpoint run_loop (fuel : nat) (cmd : option string) : M State unit :=
  match fuel with
  | O => fun st => (OutOfFuel, st)
  | S fuel' =>
      if is_stop cmd then ret tt
      else
        cmd' <- run_body fuel ;;
        run_loop fuel' cmd'
  end.

(** The statements of [run] after the loop: one more command is taken
    from the queue and executed. *)
Definition run_exit : M State unit :=
  logging INFO "stopped streaming" [] ;;;
  cmd <- get_cmd ;;
  execute_cmd cmd.

Definition run (fuel : nat) : M State unit :=
  cmd <- get_cmd ;;
  logging INFO "started streaming" [] ;;;
  run_loop fuel cmd ;;;
  run_exit.

End Run.

End Streamer.

(** Number of bytes a socket still has to deliver. *)
Definition total_len (s : socket) : Z := fold_right (fun c a => len c + a) 0 s.

(** ** Sample frames

    Concrete frames used to exercise the definitions. *)

Module Samples.
Import rdadefs.

(** The signature of the vendor's RDA frames. *)
Definition guid_bytes : list byte :=
  [x8e; x45; x58; x43; x96; xc9; x86; x4c;
   xaf; x4a; x98; xbb; xf6; xc9; x14; x50].

(** A start frame for one channel named "Fp1": 48 bytes in all. *)
Definition start_hdr_48 : rda_msg_hdr_t :=
  {| guid := guid_bytes; nSize := 48; nType := RDA_START_MSG |}.

Definition start_fixed : list byte :=
  [x01; x00; x00; x00; x00; x00; x00; x00; x00; x40; x8f; x40].

Definition start_resolution : list byte :=
  [x00; x00; x00; x00; x00; x00; xf0; x3f].

Definition start_names : list byte := [x46; x70; x31; x00].

(** The frame body delivered in three segments. *)
Definition start_sock : socket :=
  [start_fixed; start_resolution ++ [x46; x70]; [x31; x00]].

(** The start message carried by that frame. *)
Definition start_msg_48 : rda_msg_start_full_t :=
  {| start_hdr := start_hdr_48; start_nChannels := 1;
     dSamplingInterval := skipn 4 start_fixed;
     dResolutions := start_resolution; sChannelNames := start_names |}.

(** The same frame when the peer closes after the resolutions. *)
Definition start_sock_cut : socket := [start_fixed; start_resolution].

(** A data frame, block 7, two points of one channel and three marker
    bytes: 43 bytes in all. *)
Definition data_hdr_43 : rda_msg_hdr_t :=
  {| guid := guid_bytes; nSize := 43; nType := RDA_FLOAT_MSG |}.

Definition data_fixed : list byte :=
  [x07; x00; x00; x00; x02; x00; x00; x00].

Definition data_floats : list byte :=
  [x00; x00; x80; x3f; x00; x00; x00; x40].

Definition data_sock : socket :=
  [data_fixed; data_floats ++ [x01]; [x02; x03]].

Definition data_sock_cut : socket := [data_fixed; [x00; x00; x80; x3f]].


(** The 24 header bytes of the start frame [start_hdr_48]. *)
Definition start_header : list byte :=
  guid_bytes ++ [x30; x00; x00; x00; x01; x00; x00; x00].

(** An environment in which one tick passes per action and the worker
    writes nothing. *)
Definition quiet : nat -> Client.Tick := fun _ => Client.mk_tick 1 [].

(** A fresh client whose server sends the start frame in four segments. *)
Definition fresh_client : Client.State :=
  Client.init 1000 10 (start_header :: start_sock) 0 quiet.

(** The 24 header bytes of an empty frame of type 10000. *)
Definition skip_header : list byte :=
  guid_bytes ++ [x18; x00; x00; x00; x10; x27; x00; x00].

(** The client after a completed handshake: streaming, with an
    initialized, still empty buffer of 1000 samples of one channel. *)
Definition streaming_client : Client.State :=
  snd (Client.start_streaming guid_bytes 4 10 fresh_client).

(** The client after that session has been stopped; the server then
    sends an empty frame of type 10000 and nothing else. *)
Definition stopped_client : Client.State :=
  Client.set_sock [skip_header]
    (snd (Client.stop_streaming false streaming_client)).

(** An environment in which the worker appends one sample of value 1.0
    during every action of the client. *)
Definition steady : nat -> Client.Tick :=
  fun _ => Client.mk_tick 1 [[1065353216]].

Definition polling_client : Client.State :=
  snd (Client.start_streaming guid_bytes 4 10
         (Client.init 1000 10 (start_header :: start_sock) 0 steady)).

(** A table of [BufferError] codes. *)
Definition codes (k : BufferErrorKind) : Z :=
  match k with
  | NotInitialized => 1
  | Retired => 2
  | NotYetAvailable => 3
  | AlreadyInitialized => 4
  end.

(** The data message carried by the frame [data_hdr_43]. *)
Definition data_msg : rda_msg_data_full_t :=
  {| data_hdr := data_hdr_43; nBlock := 7; nPoints := 2;
     fData := data_floats; markers := [x01; x02; x03] |}.

(** A worker attached to an initialized buffer of one channel. *)
Definition one_channel : ringbuffer.RingBuffer :=
  {| ringbuffer.is_initialized := true; ringbuffer.nChannels := 1;
     ringbuffer.bufSize := 1000; ringbuffer.pocketSize := 10;
     ringbuffer.rows := [] |}.

Definition idle_streamer : Streamer.State :=
  Streamer.init [] [] one_channel (fun _ => []) (fun k => 100 + Z.of_nat k).

(** The 24 header bytes of a stop frame and of the data frame
    [data_hdr_43]. *)
Definition stop_header : list byte :=
  guid_bytes ++ [x18; x00; x00; x00; x03; x00; x00; x00].

Definition data_header : list byte :=
  guid_bytes ++ [x2b; x00; x00; x00; x04; x00; x00; x00].

(** What [stop_streaming(write_timelog=True)] puts on the queue of the
    streaming client. *)
Definition flush_puts : list string :=
  Client.q (snd (Client.stop_streaming true streaming_client)).

(** A worker that receives a data frame and an empty frame of type
    10000; the client's commands arrive while it handles the second. *)
Definition worker_stopped_by_client : Streamer.State :=
  Streamer.init (data_header :: data_sock ++ [skip_header]) [] one_channel
    (fun k => if Nat.eqb k 2 then flush_puts else [])
    (fun k => 100 + Z.of_nat k).

(** A worker that receives a data frame and then the server's stop
    frame; the client's commands arrive during the pause that follows
    the stop frame. *)
Definition worker_stopped_by_server : Streamer.State :=
  Streamer.init (data_header :: data_sock ++ [stop_header]) [] one_channel
    (fun k => if Nat.eqb k 2 then flush_puts else [])
    (fun k => 100 + Z.of_nat k).



End Samples.

(** ** Log insertion

    [insert_entry n e l] is the log [l] with the record [e] inserted at
    position [n].  An action is oblivious to the log when running it
    after such an insertion gives the same result and the same state,
    up to the inserted record: log records are written, never read. *)






Definition oblivious {St A : Type} (loglen : St -> nat)
    (ins : nat -> LogEntry -> St -> St) (m : M St A) : Prop :=
  forall (n : nat) (e : LogEntry) (st : St),
    (n <= loglen st)%nat ->
    m (ins n e st) = (fst (m st), ins n e (snd (m st))) /\
    (loglen st <= loglen (snd (m st)))%nat.


(** ** Sequences of data blocks *)

(** The last [m] elements of a list. *)
Definition keep_last {A : Type} (m : Z) (l : list A) : list A :=
  skipn (Z.to_nat (len l - m)) l.

(** The worker putting a sequence of received data blocks, one after
    the other. *)
Fixpoint put_datablocks (msgs : list rdadefs.rda_msg_data_full_t)
  : M Streamer.State unit :=
  match msgs with
  | [] => ret tt
  | m :: rest => Streamer.put_datablock m ;;; put_datablocks rest
  end.

(** A data block that fits a buffer of [nCh] channels. *)
Definition block_fits (nCh : Z) (m : rdadefs.rda_msg_data_full_t) : Prop :=
  0 <= rdadefs.nPoints m /\
  len (rdadefs.fData m) = nCh * rdadefs.nPoints m * rdadefs.sizeof_c_float.

(** ** Observations on streams and client states *)

(** The next receive of [k] bytes comes back short: the peer has closed
    the connection or the next segment holds fewer than [k] bytes. *)
Definition short_read (k : Z) (s : socket) : Prop :=
  match s with
  | [] => True
  | c :: _ => len c < k
  end.

(** Two client states that differ at most in what the environment
    owns: the clock, the position in the schedule and the rows the
    worker has written. *)
Definition same_client (st st' : Client.State) : Prop :=
  Client.buffer_size st' = Client.buffer_size st /\
  Client.buffer_window st' = Client.buffer_window st /\
  Client.start_msg st' = Client.start_msg st /\
  Client.streamer st' = Client.streamer st /\
  Client.streamer_alive st' = Client.streamer_alive st /\
  Client.q st' = Client.q st /\
  Client.sock st' = Client.sock st /\
  Client.log st' = Client.log st /\
  Client.sched st' = Client.sched st /\
  ringbuffer.is_initialized (Client.buf st')
    = ringbuffer.is_initialized (Client.buf st) /\
  ringbuffer.nChannels (Client.buf st') = ringbuffer.nChannels (Client.buf st) /\
  ringbuffer.bufSize (Client.buf st') = ringbuffer.bufSize (Client.buf st) /\
  exists more,
    ringbuffer.rows (Client.buf st') = ringbuffer.rows (Client.buf st) ++ more.

(** The number of bytes in the next segment of a socket, zero when the
    peer has closed the connection. *)
Definition first_len (s : socket) : Z :=
  match s with
  | [] => 0
  | c :: _ => len c
  end.

(** The worker object a client holds and its liveness. *)
Definition worker_handle (st : Client.State) : option unit * bool :=
  (Client.streamer st, Client.streamer_alive st).

(** An action keeps the component [f] of the state. *)
Definition keeps {St A X : Type} (f : St -> X) (m : M St A) : Prop :=
  forall st : St, f (snd (m st)) = f st.

(** * Properties *)

(** ** Generic facts *)

Lemma len_app {A : Type} (l1 l2 : list A) : len (l1 ++ l2) = len l1 + len l2.
Proof. unfold len. rewrite length_app. lia. Qed.

Lemma len_nonneg {A : Type} (l : list A) : 0 <= len l.
Proof. unfold len. lia. Qed.

Lemma len_skipn {A : Type} (k : Z) (l : list A) :
  0 <= k <= len l -> len (skipn (Z.to_nat k) l) = len l - k.
Proof. unfold len. intros H. rewrite length_skipn. lia. Qed.

Lemma len_firstn {A : Type} (k : Z) (l : list A) :
  0 <= k <= len l -> len (firstn (Z.to_nat k) l) = k.
Proof. unfold len. intros H. rewrite length_firstn. lia. Qed.

(** ** The socket *)

Lemma total_len_cons (c : list byte) (s : socket) :
  total_len (c :: s) = len c + total_len s.
Proof. reflexivity. Qed.

Lemma total_len_nonneg (s : socket) : 0 <= total_len s.
Proof.
  induction s as [|c r IH]; [cbn; lia|].
  rewrite total_len_cons. pose proof (len_nonneg c). lia.
Qed.

Lemma recv_into_closed (k : Z) : recv_into k [] = (Ret [], []).
Proof. reflexivity. Qed.

Lemma recv_into_bound (k : Z) (s s' : socket) (r : res (list byte)) :
  0 <= k -> recv_into k s = (r, s') -> exists c, r = Ret c /\ len c <= k.
Proof.
  intros Hk. unfold recv_into. destruct s as [|c rest].
  - intros [= <- <-]. exists []. split; [reflexivity | cbn; lia].
  - destruct (len c <=? k) eqn:E; intros [= <- <-].
    + exists c. split; [reflexivity | lia].
    + eexists. split; [reflexivity |]. rewrite len_firstn; lia.
Qed.

(** ** The accumulating read loop *)

Section ReadLoop.
Import rdadefs rdatools.

(** Once the peer has closed the connection the loop makes no progress:
    whatever the fuel, it is still running when the fuel is spent. *)
Lemma read_var_closed (fuel : nat) (varLength n : Z) (acc : list byte) :
  n < varLength -> read_var fuel varLength n acc [] = (OutOfFuel, []).
Proof.
  revert n acc. induction fuel as [|fuel IH]; intros n acc Hn.
  - reflexivity.
  - cbn [read_var]. destruct (n <? varLength) eqn:E; [|lia].
    unfold bind. rewrite recv_into_closed.
    rewrite app_nil_r. apply IH. cbn. lia.
Qed.

(** The same when the stream closes after delivering fewer bytes than
    the variable region still needs. *)
Lemma read_var_truncated (fuel : nat) (varLength : Z) :
  forall (s : socket) (n : Z) (acc : list byte),
    n + total_len s < varLength ->
    fst (read_var fuel varLength n acc s) = OutOfFuel.
Proof.
  induction fuel as [|fuel IH]; intros s n acc Hn.
  - reflexivity.
  - cbn [read_var]. pose proof (total_len_nonneg s) as Hs.
    destruct (n <? varLength) eqn:E; [|lia].
    unfold bind. destruct s as [|c rest].
    + rewrite recv_into_closed, app_nil_r.
      rewrite read_var_closed by (cbn; lia). reflexivity.
    + rewrite total_len_cons in Hn.
      pose proof (total_len_nonneg rest) as Hr.
      cbn [recv_into]. destruct (len c <=? varLength - n) eqn:E'; [|lia].
      apply IH. lia.
Qed.

(** When the stream still holds the missing bytes the loop returns,
    after at most one receive per segment. *)
Lemma read_var_complete (varLength : Z) :
  forall (s : socket) (n : Z) (acc : list byte),
    varLength - n <= total_len s ->
    exists var s',
      read_var (S (List.length s)) varLength n acc s = (Ret var, s').
Proof.
  induction s as [|c rest IH]; intros n acc H.
  - cbn [total_len fold_right] in H. cbn [read_var List.length].
    destruct (Z.ltb_spec n varLength) as [Hlt|Hge]; [lia|].
    eexists. eexists. reflexivity.
  - rewrite total_len_cons in H.
    change (List.length (c :: rest)) with (S (List.length rest)).
    cbn [read_var].
    destruct (Z.ltb_spec n varLength) as [Hlt|Hge];
      [|eexists; eexists; reflexivity].
    unfold bind at 1. cbn [recv_into].
    destruct (Z.leb_spec (len c) (varLength - n)) as [Hle|Hgt].
    + apply IH. lia.
    + cbn [read_var]. rewrite len_firstn by (pose proof (len_nonneg c); lia).
      destruct (Z.ltb_spec (n + (varLength - n)) varLength) as [Hlt'|Hge'];
        [lia|].
      eexists. eexists. reflexivity.
Qed.

(** What the loop returns has the length it was asked for. *)
Lemma read_var_length (fuel : nat) (varLength : Z) :
  forall (s s' : socket) (n : Z) (acc var : list byte),
    n <= varLength -> len acc = n ->
    read_var fuel varLength n acc s = (Ret var, s') ->
    len var = varLength.
Proof.
  induction fuel as [|fuel IH]; intros s s' n acc var Hn Hacc.
  - discriminate.
  - cbn [read_var]. destruct (n <? varLength) eqn:E.
    + unfold bind. destruct (recv_into (varLength - n) s) as [r s1] eqn:Er.
      assert (Hk : 0 <= varLength - n) by lia.
      destruct (recv_into_bound _ _ _ _ Hk Er) as [c [-> Hc]].
      intros Hr. eapply IH; [| |exact Hr]; [lia | rewrite len_app; lia].
    + intros [= <- <-]. lia.
Qed.

Lemma start_full_ok (nCh strLen varLength : Z) :
  start_full nCh strLen = Ret varLength ->
  0 <= nCh /\ 0 <= strLen /\ varLength = nCh * sizeof_c_double + strLen.
Proof.
  unfold start_full.
  destruct (nCh <? 0) eqn:E1; destruct (strLen <? 0) eqn:E2; cbn;
    try discriminate.
  intros [= <-]. lia.
Qed.

Lemma data_full_ok (nCh nPts mLen varLength : Z) :
  data_full nCh nPts mLen = Ret varLength ->
  0 <= nCh * nPts /\ 0 <= mLen /\
  varLength = nCh * nPts * sizeof_c_float + mLen.
Proof.
  unfold data_full.
  destruct (nCh * nPts <? 0) eqn:E1; destruct (mLen <? 0) eqn:E2; cbn;
    try discriminate.
  intros [= <-]. lia.
Qed.

(** Inversion of a successful [rda_read_start_msg]. *)
Lemma rda_read_start_msg_inv (fuel : nat) (hdr : rda_msg_hdr_t)
    (s s' : socket) (msg : rda_msg_start_full_t) :
  rda_read_start_msg fuel hdr s = (Ret msg, s') ->
  exists var,
    len var = nSize hdr - sizeof_start /\
    0 <= start_nChannels msg /\
    start_nChannels msg * sizeof_c_double <= len var /\
    start_hdr msg = hdr /\
    dResolutions msg = slice 0 (start_nChannels msg * sizeof_c_double) var /\
    sChannelNames msg =
      skipn (Z.to_nat (start_nChannels msg * sizeof_c_double)) var.
Proof.
  unfold rda_read_start_msg.
  destruct (nSize hdr <? sizeof_start); [discriminate|].
  unfold bind, lift_res, ret.
  destruct (recv_into (sizeof_start - sizeof_hdr) s) as [[rest| |] s1];
    try discriminate.
  destruct (check_received _ _); try discriminate.
  destruct (start_full _ _) as [vl| |] eqn:Ef; try discriminate.
  destruct (read_var fuel vl 0 [] s1) as [[var| |] s2] eqn:Er; try discriminate.
  intros [= <- <-]. cbn [start_nChannels start_hdr dResolutions sChannelNames].
  apply start_full_ok in Ef. destruct Ef as (Hc & Hs & ->).
  unfold sizeof_c_double in *.
  apply read_var_length in Er; [|lia|reflexivity].
  exists var. do 3 (split; [lia|]). split; [reflexivity|]. split; reflexivity.
Qed.

(** Inversion of a successful [rda_read_data_msg]. *)
Lemma rda_read_data_msg_inv (fuel : nat) (hdr : rda_msg_hdr_t) (nCh : Z)
    (s s' : socket) (msg : rda_msg_data_full_t) :
  rda_read_data_msg fuel hdr nCh s = (Ret msg, s') ->
  exists var,
    len var = nSize hdr - sizeof_data /\
    0 <= nCh * nPoints msg /\
    nCh * nPoints msg * sizeof_c_float <= len var /\
    data_hdr msg = hdr /\
    fData msg = slice 0 (nCh * nPoints msg * sizeof_c_float) var /\
    markers msg = skipn (Z.to_nat (nCh * nPoints msg * sizeof_c_float)) var.
Proof.
  unfold rda_read_data_msg.
  destruct (nSize hdr <? sizeof_data); [discriminate|].
  unfold bind, lift_res, ret.
  destruct (recv_into (sizeof_data - sizeof_hdr) s) as [[rest| |] s1];
    try discriminate.
  destruct (check_received _ _); try discriminate.
  destruct (data_full _ _ _) as [vl| |] eqn:Ef; try discriminate.
  destruct (read_var fuel vl 0 [] s1) as [[var| |] s2] eqn:Er; try discriminate.
  intros [= <- <-]. cbn [nPoints data_hdr fData markers].
  apply data_full_ok in Ef. destruct Ef as (Hc & Hs & ->).
  unfold sizeof_c_float in *.
  apply read_var_length in Er; [|lia|reflexivity].
  change (match rest with | _ :: _ :: _ :: _ :: l2 => l2 | _ => [] end)
    with (skipn 4 rest).
  exists var. do 3 (split; [lia|]). split; [reflexivity|]. split; reflexivity.
Qed.

End ReadLoop.

(** ** The frame codec *)

Section Codec.
Import rdadefs rdatools.

Lemma rda_read_start_msg_truncated (fuel : nat) (hdr : rda_msg_hdr_t)
    (rest : list byte) (s : socket) :
  sizeof_start <= nSize hdr ->
  len rest = sizeof_start - sizeof_hdr ->
  0 <= le_int32 rest ->
  0 <= nSize hdr - sizeof_start - le_int32 rest * sizeof_c_double ->
  total_len s < nSize hdr - sizeof_start ->
  fst (rda_read_start_msg fuel hdr (rest :: s)) = OutOfFuel.
Proof.
  intros Hsz Hrest Hc Hs Ht. unfold rda_read_start_msg.
  destruct (nSize hdr <? sizeof_start) eqn:E; [lia|].
  unfold bind at 1. cbn [recv_into].
  destruct (len rest <=? sizeof_start - sizeof_hdr) eqn:E1; [|lia].
  unfold bind at 1. unfold lift_res at 1. unfold check_received.
  destruct (len rest =? sizeof_start - sizeof_hdr) eqn:E2; [|lia].
  unfold bind at 1. unfold lift_res, start_full.
  assert (E3 : (le_int32 rest <? 0) = false) by (apply Z.ltb_ge; lia).
  assert (E4 : (nSize hdr - sizeof_start - le_int32 rest * sizeof_c_double <? 0)
               = false) by (apply Z.ltb_ge; lia).
  rewrite E3, E4. cbn [orb].
  unfold bind.
  assert (H : fst (read_var fuel
    (le_int32 rest * sizeof_c_double +
     (nSize hdr - sizeof_start - le_int32 rest * sizeof_c_double)) 0 [] s)
    = OutOfFuel) by (apply read_var_truncated; lia).
  destruct (read_var _ _ _ _ _) as [[v| |] s2]; cbn in H;
    try discriminate H; reflexivity.
Qed.

Lemma rda_read_data_msg_truncated (fuel : nat) (hdr : rda_msg_hdr_t)
    (nCh : Z) (rest : list byte) (s : socket) :
  sizeof_data <= nSize hdr ->
  len rest = sizeof_data - sizeof_hdr ->
  0 <= nCh * le_int32 (skipn 4 rest) ->
  0 <= nSize hdr - sizeof_data - nCh * le_int32 (skipn 4 rest) * sizeof_c_float ->
  total_len s < nSize hdr - sizeof_data ->
  fst (rda_read_data_msg fuel hdr nCh (rest :: s)) = OutOfFuel.
Proof.
  intros Hsz Hrest Hc Hs Ht. unfold rda_read_data_msg.
  destruct (nSize hdr <? sizeof_data) eqn:E; [lia|].
  unfold bind at 1. cbn [recv_into].
  destruct (len rest <=? sizeof_data - sizeof_hdr) eqn:E1; [|lia].
  unfold bind at 1. unfold lift_res at 1. unfold check_received.
  destruct (len rest =? sizeof_data - sizeof_hdr) eqn:E2; [|lia].
  unfold bind at 1. unfold lift_res, data_full.
  assert (E3 : (nCh * le_int32 (skipn 4 rest) <? 0) = false)
    by (apply Z.ltb_ge; lia).
  assert (E4 : (nSize hdr - sizeof_data
                - nCh * le_int32 (skipn 4 rest) * sizeof_c_float <? 0) = false)
    by (apply Z.ltb_ge; lia).
  rewrite E3, E4. cbn [orb].
  unfold bind.
  assert (H : fst (read_var fuel
    (nCh * le_int32 (skipn 4 rest) * sizeof_c_float +
     (nSize hdr - sizeof_data - nCh * le_int32 (skipn 4 rest) * sizeof_c_float))
    0 [] s) = OutOfFuel) by (apply read_var_truncated; lia).
  destruct (read_var _ _ _ _ _) as [[v| |] s2]; cbn in H;
    try discriminate H; reflexivity.
Qed.

(** C4 (the code departs from the claim): when the stream closes before
    the variable region of a start or data message is complete, the
    accumulating read loop does not fail with a truncation error and
    does not return either.  Every further receive yields zero bytes,
    the byte count never reaches the variable length, and for every
    amount of fuel both readers are still inside the loop. *)
Theorem truncated_frame_never_returns (fuel : nat) :
  fst (rda_read_start_msg fuel Samples.start_hdr_48 Samples.start_sock_cut)
    = OutOfFuel /\
  fst (rda_read_data_msg fuel Samples.data_hdr_43 1 Samples.data_sock_cut)
    = OutOfFuel.
Proof.
  split.
  - apply rda_read_start_msg_truncated; vm_compute; congruence.
  - apply rda_read_data_msg_truncated; vm_compute; congruence.
Qed.

(** C5: a start message read for a header of total size [S] has a
    channel-name region of exactly [S - fixed size - channels * 8] bytes,
    and a data message read for such a header and [c] channels has a
    markers region of exactly [S - fixed size - c * points * 4] bytes. *)
Theorem region_lengths_from_header
    (fuel : nat) (hdrS hdrD : rda_msg_hdr_t) (nCh : Z)
    (sS sS' sD sD' : socket)
    (smsg : rda_msg_start_full_t) (dmsg : rda_msg_data_full_t)
    (HS : rda_read_start_msg fuel hdrS sS = (Ret smsg, sS'))
    (HD : rda_read_data_msg fuel hdrD nCh sD = (Ret dmsg, sD')) :
  len (sChannelNames smsg)
    = nSize hdrS - sizeof_start - start_nChannels smsg * 8 /\
  len (markers dmsg)
    = nSize hdrD - sizeof_data - nCh * nPoints dmsg * 4.
Proof.
  apply rda_read_start_msg_inv in HS. destruct HS as (vs & Hl & Hc & Hb & _ & _ & ->).
  apply rda_read_data_msg_inv in HD. destruct HD as (vd & Hl' & Hc' & Hb' & _ & _ & ->).
  unfold sizeof_c_double, sizeof_c_float in *.
  split; rewrite len_skipn; lia.
Qed.

Lemma region_lengths_from_header_witness :
  exists smsg dmsg,
    rda_read_start_msg 4 Samples.start_hdr_48 Samples.start_sock = (Ret smsg, []) /\
    rda_read_data_msg 4 Samples.data_hdr_43 1 Samples.data_sock = (Ret dmsg, []) /\
    len (sChannelNames smsg) = 4 /\ sChannelNames smsg = Samples.start_names /\
    len (markers dmsg) = 3.
Proof.
  eexists. eexists.
  split; [vm_compute; reflexivity|]. split; [vm_compute; reflexivity|].
  pose proof (region_lengths_from_header 4 Samples.start_hdr_48
                Samples.data_hdr_43 1 Samples.start_sock [] Samples.data_sock []
                _ _ eq_refl eq_refl) as [H1 H2].
  split; [exact H1|]. split; [reflexivity|exact H2].
Defined.

End Codec.

(** ** Signature validation *)

Section Signature.
Import rdadefs rdatools.


End Signature.

(** ** Logging does not steer the code *)

Section Oblivious.
Context {St : Type} (loglen : St -> nat) (ins : nat -> LogEntry -> St -> St).


Lemma oblivious_raise {A : Type} (x : exn) : oblivious loglen ins (@raise St A x).
Proof. intros n e st H. split; [reflexivity | apply Nat.le_refl]. Qed.



Lemma oblivious_try_except {A : Type} (m h : M St A) :
  oblivious loglen ins m -> oblivious loglen ins h ->
  oblivious loglen ins (try_except m h).
Proof.
  intros Hm Hh n e st H. unfold try_except.
  destruct (Hm n e st H) as [-> Hle].
  destruct (m st) as [[a|x|] s1]; cbn [fst snd] in *.
  - split; [reflexivity | exact Hle].
  - destruct (Hh n e s1 (Nat.le_trans _ _ _ H Hle)) as [-> Hle'].
    split; [reflexivity | eapply Nat.le_trans; eassumption].
  - split; [reflexivity | exact Hle].
Qed.

End Oblivious.



Section ClientOblivious.
Import rdadefs.






End ClientOblivious.

Section StreamerOblivious.
Import rdadefs.







End StreamerOblivious.

Section SignatureCallers.
Import rdadefs rdatools.

Lemma recv_header (bytes : list byte) (rest : socket) :
  len bytes = sizeof_hdr ->
  recv_into sizeof_hdr (bytes :: rest) = (Ret bytes, rest).
Proof.
  intros H. cbn [recv_into]. destruct (len bytes <=? sizeof_hdr) eqn:E; [reflexivity|lia].
Qed.



End SignatureCallers.

Section SignatureClaim.
Import rdadefs rdatools.



End SignatureClaim.

(** ** Session state *)

Section Session.
Import rdadefs ringbuffer.

Lemma is_streaming_value (st : Client.State) :
  Client.is_streaming st
  = (Ret match Client.streamer st with
         | Some _ => Client.streamer_alive st
         | None => false
         end, st).
Proof.
  unfold Client.is_streaming, try_except, Client.streamer_is_alive.
  destruct (Client.streamer st); reflexivity.
Qed.

(** C3: a call to [start_streaming] on a client that is already
    streaming raises the "already streaming" exception and leaves the
    client, its buffer, socket, queue and log as they were. *)
Theorem start_streaming_while_streaming
    (G : list byte) (fuel : nat) (timeout : Z) (st : Client.State)
    (H : fst (Client.is_streaming st) = Ret true) :
  Client.start_streaming G fuel timeout st
  = (Raise (Exception "already streaming"), st).
Proof.
  unfold Client.start_streaming, bind.
  rewrite is_streaming_value in *. cbn [fst] in H.
  injection H as ->. reflexivity.
Qed.

Lemma start_streaming_while_streaming_witness :
  let st := snd (Client.start_streaming Samples.guid_bytes 4 10
                   Samples.fresh_client) in
  fst (Client.start_streaming Samples.guid_bytes 4 10 Samples.fresh_client)
    = Ret tt /\
  fst (Client.is_streaming st) = Ret true /\
  Client.start_streaming Samples.guid_bytes 4 10 st
    = (Raise (Exception "already streaming"), st).
Proof.
  cbv zeta. split; [vm_compute; reflexivity|].
  split; [vm_compute; reflexivity|].
  apply (start_streaming_while_streaming Samples.guid_bytes 4 10).
  vm_compute. reflexivity.
Defined.

(** C9: reading [is_streaming] always yields a boolean and never
    raises; on a freshly constructed client, which has no worker
    object, it yields false, so that [stop_streaming], [wait] and
    [poll] each raise their not-streaming exception and change
    nothing. *)
Theorem is_streaming_total_and_false_when_fresh
    (code : BufferErrorKind -> Z) (st : Client.State)
    (size window now : Z) (s : socket) (schedule : nat -> Client.Tick)
    (fuel : nat) (flush : bool) (a b n timeout sleep : Z) :
  (exists v : bool, Client.is_streaming st = (Ret v, st)) /\
  let fresh := Client.init size window s now schedule in
  Client.is_streaming fresh = (Ret false, fresh) /\
  Client.stop_streaming flush fresh
    = (Raise (Exception "already stopped"), fresh) /\
  Client.wait code fuel a b timeout sleep fresh
    = (Raise (Exception "nothing to wait, start streaming first"), fresh) /\
  Client.poll code fuel n timeout sleep fresh
    = (Raise (Exception "nothing to wait, start streaming first"), fresh).
Proof.
  split.
  - eexists. apply is_streaming_value.
  - cbv zeta. repeat split; reflexivity.
Qed.

End Session.

(** ** Waiting for data *)

Section Waiting.
Import rdadefs ringbuffer.

Variable code : BufferErrorKind -> Z.

Lemma wait_loop_step (fuel : nat) (a b timeout sleep then_ now : Z)
    (st : Client.State) :
  now - then_ < timeout ->
  Client.wait_loop code (S fuel) a b timeout sleep then_ now st
  = match ringbuffer.get_data a b (Client.buf (Client.advance st)) with
    | Ret d => (Ret (Some d), Client.advance st)
    | Raise (BufferError e) =>
        if negb (code e =? 3) then (Ret None, Client.advance st)
        else (Client.time_sleep sleep ;;;
              now' <- Client.time_time ;;
              Client.wait_loop code fuel a b timeout sleep then_ now')
               (Client.advance st)
    | Raise e => (Raise e, Client.advance st)
    | OutOfFuel => (OutOfFuel, Client.advance st)
    end.
Proof.
  intros H. cbn [Client.wait_loop].
  destruct (now - then_ <? timeout) eqn:E; [|lia].
  unfold Client.buf_get_data. reflexivity.
Qed.

Lemma wait_loop_expired (fuel : nat) (a b timeout sleep then_ now : Z)
    (st : Client.State) :
  timeout <= now - then_ ->
  Client.wait_loop code (S fuel) a b timeout sleep then_ now st = (Ret None, st).
Proof.
  intros H. cbn [Client.wait_loop].
  destruct (now - then_ <? timeout) eqn:E; [lia|reflexivity].
Qed.

Lemma wait_streaming (fuel : nat) (a b timeout sleep : Z) (st : Client.State) :
  fst (Client.is_streaming st) = Ret true ->
  Client.wait code fuel a b timeout sleep st
  = Client.wait_loop code fuel a b timeout sleep
      (Client.clock (Client.advance st))
      (Client.clock (Client.advance (Client.advance st)))
      (Client.advance (Client.advance st)).
Proof.
  intros H. unfold Client.wait. unfold bind at 1.
  rewrite is_streaming_value in *. cbn [fst] in H. injection H as ->.
  reflexivity.
Qed.

(** C1: inside [wait], while the timeout has not elapsed, a buffer read
    that fails with NotYetAvailable makes the call go on polling (it
    sleeps, reads the clock and tests the loop condition again), the
    loop ending when the read succeeds or when the timeout has elapsed;
    a read that fails with Retired or NotInitialized makes the call
    return unavailability at once, without sleeping. *)
Theorem wait_retry_policy
    (fuel : nat) (a b timeout sleep then_ now : Z) (st st0 : Client.State)
    (Hnya : code NotYetAvailable = 3)
    (Hret : code Retired <> 3)
    (Hni : code NotInitialized <> 3)
    (Hstreaming : fst (Client.is_streaming st0) = Ret true)
    (Hin : now - then_ < timeout) :
  let r := ringbuffer.get_data a b (Client.buf (Client.advance st)) in
  (Client.wait code fuel a b timeout sleep st0
   = Client.wait_loop code fuel a b timeout sleep
       (Client.clock (Client.advance st0))
       (Client.clock (Client.advance (Client.advance st0)))
       (Client.advance (Client.advance st0))) /\
  (r = Raise (BufferError NotYetAvailable) ->
   Client.wait_loop code (S fuel) a b timeout sleep then_ now st
   = (Client.time_sleep sleep ;;;
      now' <- Client.time_time ;;
      Client.wait_loop code fuel a b timeout sleep then_ now')
       (Client.advance st)) /\
  (r = Raise (BufferError Retired) \/ r = Raise (BufferError NotInitialized) ->
   Client.wait_loop code (S fuel) a b timeout sleep then_ now st
   = (Ret None, Client.advance st)) /\
  (forall d, r = Ret d ->
   Client.wait_loop code (S fuel) a b timeout sleep then_ now st
   = (Ret (Some d), Client.advance st)) /\
  (forall late, timeout <= late - then_ ->
   Client.wait_loop code (S fuel) a b timeout sleep then_ late st
   = (Ret None, st)).
Proof.
  cbv zeta. split; [apply wait_streaming; exact Hstreaming|].
  split; [|split; [|split]].
  - intros Hr. rewrite wait_loop_step by exact Hin. rewrite Hr, Hnya.
    reflexivity.
  - intros [Hr|Hr]; rewrite wait_loop_step by exact Hin; rewrite Hr.
    + destruct (code Retired =? 3) eqn:E; [lia|reflexivity].
    + destruct (code NotInitialized =? 3) eqn:E; [lia|reflexivity].
  - intros d Hr. rewrite wait_loop_step by exact Hin. rewrite Hr. reflexivity.
  - intros late Hl. apply wait_loop_expired. exact Hl.
Qed.

End Waiting.

Lemma wait_retry_policy_witness :
  ringbuffer.get_data 0 1 (Client.buf (Client.advance Samples.streaming_client))
    = Raise (BufferError NotYetAvailable) /\
  Client.wait_loop Samples.codes 1 0 1 5 0 0 0 Samples.streaming_client
    = (Client.time_sleep 0 ;;;
       now' <- Client.time_time ;;
       Client.wait_loop Samples.codes 0 0 1 5 0 0 now')
        (Client.advance Samples.streaming_client) /\
  ringbuffer.get_data (-1000) 0
    (Client.buf (Client.advance Samples.streaming_client))
    = Raise (BufferError Retired) /\
  Client.wait_loop Samples.codes 1 (-1000) 0 5 0 0 0 Samples.streaming_client
    = (Ret None, Client.advance Samples.streaming_client).
Proof.
  assert (Hs : fst (Client.is_streaming Samples.streaming_client) = Ret true)
    by (vm_compute; reflexivity).
  assert (Hin : 0 - 0 < 5) by lia.
  assert (H3 : Samples.codes NotYetAvailable = 3) by reflexivity.
  assert (H2 : Samples.codes Retired <> 3) by discriminate.
  assert (H1 : Samples.codes NotInitialized <> 3) by discriminate.
  pose proof (wait_retry_policy Samples.codes 0 0 1 5 0 0 0
                Samples.streaming_client Samples.streaming_client
                H3 H2 H1 Hs Hin) as (_ & Hnya & _).
  pose proof (wait_retry_policy Samples.codes 0 (-1000) 0 5 0 0 0
                Samples.streaming_client Samples.streaming_client
                H3 H2 H1 Hs Hin) as (_ & _ & Hret & _).
  assert (E1 : ringbuffer.get_data 0 1
                 (Client.buf (Client.advance Samples.streaming_client))
               = Raise (BufferError NotYetAvailable))
    by (vm_compute; reflexivity).
  assert (E2 : ringbuffer.get_data (-1000) 0
                 (Client.buf (Client.advance Samples.streaming_client))
               = Raise (BufferError Retired))
    by (vm_compute; reflexivity).
  split; [exact E1|]. split; [exact (Hnya E1)|].
  split; [exact E2|]. exact (Hret (or_introl E2)).
Defined.

(** ** The high-water mark and polling *)

Section Polling.
Import rdadefs ringbuffer.

Variable code : BufferErrorKind -> Z.



Lemma get_data_cases (a b : Z) (rb : RingBuffer) :
  (ringbuffer.get_data a b rb = Ret (slice a b (rows rb)) /\
   is_initialized rb = true /\
   b <= nSamplesWritten rb /\ nSamplesWritten rb - bufSize rb < a) \/
  (exists k, ringbuffer.get_data a b rb = Raise (BufferError k)).
Proof.
  unfold ringbuffer.get_data.
  destruct (is_initialized rb); cbn [negb].
  - destruct (nSamplesWritten rb <? b) eqn:E1.
    + right. eexists. reflexivity.
    + destruct (a <=? nSamplesWritten rb - bufSize rb) eqn:E2.
      * right. eexists. reflexivity.
      * left. repeat split; lia.
  - right. eexists. reflexivity.
Qed.



Lemma len_slice {A : Type} (a b : Z) (l : list A) :
  0 <= a <= b -> b <= len l -> len (slice a b l) = b - a.
Proof.
  intros Ha Hb. unfold slice, len in *.
  rewrite length_firstn, length_skipn. lia.
Qed.

Lemma wait_loop_returns (a b timeout sleep then_ : Z) :
  0 <= sleep ->
  forall (fuel : nat) (now : Z) (st : Client.State),
    (forall k, 1 <= Client.dt (Client.sched st k)) ->
    now <= Client.clock st ->
    (0 < fuel)%nat ->
    timeout - (now - then_) < Z.of_nat fuel ->
    exists v, fst (Client.wait_loop code fuel a b timeout sleep then_ now st)
              = Ret v.
Proof.
  intros Hsleep. induction fuel as [|fuel IH]; intros now st Hdt Hnow Hpos Hfuel.
  - lia.
  - destruct (Z.ltb_spec (now - then_) timeout) as [Hin|Hout].
    + rewrite wait_loop_step by exact Hin.
      destruct (get_data_cases a b (Client.buf (Client.advance st)))
        as [(-> & _) | [k ->]].
      * eexists. reflexivity.
      * destruct (negb (code k =? 3)); [eexists; reflexivity|].
        unfold bind, Client.time_sleep, Client.time_time.
        destruct (sleep <? 0) eqn:E; [lia|].
        apply IH.
        -- exact Hdt.
        -- apply Z.le_refl.
        -- lia.
        -- cbn [Client.advance Client.add_clock Client.clock Client.sched Client.pos].
           pose proof (Hdt (Client.pos st)).
           pose proof (Hdt (S (Client.pos st))).
           pose proof (Hdt (S (S (Client.pos st)))). lia.
    + rewrite wait_loop_expired by lia. eexists. reflexivity.
Qed.


Lemma client_get_data_cases (a b : Z) (st : Client.State) :
  let st' := Client.advance st in
  (Client.get_data a b st = (Ret (Some (slice a b (rows (Client.buf st')))), st') /\
   b <= nSamplesWritten (Client.buf st') /\
   nSamplesWritten (Client.buf st') - bufSize (Client.buf st') < a) \/
  Client.get_data a b st = (Ret None, st').
Proof.
  cbv zeta. unfold Client.get_data, try_except, bind, Client.buf_get_data.
  destruct (get_data_cases a b (Client.buf (Client.advance st)))
    as [(-> & _ & Hb & Ha) | [k ->]].
  - left. repeat split; assumption.
  - right. reflexivity.
Qed.

End Polling.

Section PollClaim.
Import rdadefs ringbuffer.




End PollClaim.

(** ** The handshake *)

Section Handshake.
Import rdadefs ringbuffer.

Lemma finish_start_initialized (st : Client.State) :
  is_initialized (Client.buf st) = true ->
  Client.finish_start st
  = (Ret tt,
     Client.set_streamer (Some tt) true
       (Client.set_log
          (Client.log st
           ++ [mk_log "rdaclient" INFO "spawning a streamer process..." []])
          st)).
Proof.
  intros H. unfold Client.finish_start, bind, get. rewrite H. reflexivity.
Qed.

Lemma finish_start_cached (st : Client.State) (m : rda_msg_start_full_t) :
  is_initialized (Client.buf st) = false ->
  Client.start_msg st = Some m ->
  exists st',
    Client.finish_start st = (Ret tt, st') /\
    Client.streamer st' = Some tt /\ Client.streamer_alive st' = true /\
    Client.buf st'
    = {| is_initialized := true; nChannels := start_nChannels m;
         bufSize := Client.buffer_size st;
         pocketSize := Client.buffer_window st; rows := [] |}.
Proof.
  intros H Hm. unfold Client.finish_start, bind, get. rewrite H.
  cbn [negb]. unfold Client.logging at 1. unfold modify at 1.
  cbn [Client.start_msg Client.set_log]. rewrite Hm.
  unfold lift_res, initialize. cbn [Client.buf Client.set_log]. rewrite H.
  eexists. split; [reflexivity|]. repeat split.
Qed.

(** C2, as amended: when the timeout elapses without a start message
    and without a resume, [start_streaming] raises no timeout error but
    goes on with the statements after the loop.  If the buffer is
    already initialized, or a start message is cached, the call returns
    normally with the buffer initialized and a worker spawned. *)
Theorem start_streaming_after_timeout
    (G : list byte) (fuel : nat) (timeout : Z) (st st1 : Client.State)
    (Hidle : fst (Client.is_streaming st) = Ret false)
    (Hexpired : Client.await_start G fuel timeout st = (Ret Client.Expired, st1))
    (Hprior : is_initialized (Client.buf st1) = true \/
              Client.start_msg st1 <> None) :
  exists st',
    Client.start_streaming G fuel timeout st = (Ret tt, st') /\
    fst (Client.is_streaming st') = Ret true /\
    is_initialized (Client.buf st') = true.
Proof.
  unfold Client.start_streaming. unfold bind at 1.
  rewrite is_streaming_value in *. cbn [fst] in Hidle.
  injection Hidle as ->. unfold bind. rewrite Hexpired.
  destruct (is_initialized (Client.buf st1)) eqn:Hinit.
  - rewrite finish_start_initialized by exact Hinit.
    eexists. split; [reflexivity|].
    rewrite is_streaming_value. split; [reflexivity | exact Hinit].
  - destruct Hprior as [Hp|Hp]; [discriminate Hp|].
    destruct (Client.start_msg st1) as [m|] eqn:Hm; [|congruence].
    destruct (finish_start_cached st1 m Hinit Hm) as (st' & -> & Hs & Ha & Hb).
    exists st'. split; [reflexivity|].
    rewrite is_streaming_value, Hs, Ha, Hb. split; reflexivity.
Qed.

Lemma start_streaming_after_timeout_witness :
  fst (Client.is_streaming Samples.stopped_client) = Ret false /\
  fst (Client.await_start Samples.guid_bytes 4 2 Samples.stopped_client)
    = Ret Client.Expired /\
  exists st',
    Client.start_streaming Samples.guid_bytes 4 2 Samples.stopped_client
      = (Ret tt, st') /\
    fst (Client.is_streaming st') = Ret true /\
    is_initialized (Client.buf st') = true.
Proof.
  split; [vm_compute; reflexivity|]. split; [vm_compute; reflexivity|].
  apply (start_streaming_after_timeout Samples.guid_bytes 4 2
           Samples.stopped_client
           (snd (Client.await_start Samples.guid_bytes 4 2
                   Samples.stopped_client))).
  - vm_compute. reflexivity.
  - vm_compute. reflexivity.
  - left. vm_compute. reflexivity.
Defined.

(** C2 as stated fails: a client with a previous session waits two
    ticks, receives only a frame of type 10000, leaves the loop because
    the timeout has elapsed, and the call then returns normally with a
    worker spawned. *)
Lemma handshake_timeout_spawns_worker :
  let out := Client.start_streaming Samples.guid_bytes 4 2
               Samples.stopped_client in
  fst (Client.is_streaming Samples.stopped_client) = Ret false /\
  fst (Client.await_start Samples.guid_bytes 4 2 Samples.stopped_client)
    = Ret Client.Expired /\
  fst out = Ret tt /\
  fst (Client.is_streaming (snd out)) = Ret true.
Proof.
  cbv zeta. repeat split; vm_compute; reflexivity.
Qed.

End Handshake.

(** ** The time log *)

Section TimeLog.
Import rdadefs ringbuffer.

Lemma keep_last_short {A : Type} (m : Z) (l : list A) :
  len l <= m -> keep_last m l = l.
Proof.
  intros H. unfold keep_last. replace (Z.to_nat (len l - m)) with O by lia.
  reflexivity.
Qed.

Lemma len_keep_last {A : Type} (m : Z) (l : list A) :
  0 <= m -> len (keep_last m l) <= m.
Proof.
  intros H. unfold keep_last, len. rewrite length_skipn. lia.
Qed.

Lemma keep_last_app {A : Type} (m : Z) (a b : list A) :
  0 <= m -> keep_last m (keep_last m a ++ b) = keep_last m (a ++ b).
Proof.
  intros Hm. unfold keep_last at 2.
  set (k := Z.to_nat (len a - m)).
  assert (Hk : (k <= List.length a)%nat) by (unfold k, len; lia).
  replace (skipn k a ++ b) with (skipn k (a ++ b)).
  2:{ rewrite skipn_app. replace (k - List.length a)%nat with O by lia.
      reflexivity. }
  unfold keep_last. rewrite skipn_skipn. f_equal.
  unfold len. rewrite length_skipn, !length_app. unfold k, len. lia.
Qed.

Lemma deque_append_keep_last (m x : Z) (d : list Z) :
  len d <= m -> Streamer.deque_append m x d = keep_last m (d ++ [x]).
Proof.
  intros H. unfold Streamer.deque_append, keep_last.
  rewrite len_app. change (len [x]) with 1.
  destruct (Z.ltb_spec m (len d + 1)) as [Hlt|Hge].
  - replace (Z.to_nat (len d + 1 - m)) with 1%nat by lia. reflexivity.
  - replace (Z.to_nat (len d + 1 - m)) with O by lia. reflexivity.
Qed.

Lemma deque_append_full (m x : Z) (d : list Z) :
  0 < m -> len d = m -> Streamer.deque_append m x d = tl d ++ [x].
Proof.
  intros Hm H. unfold Streamer.deque_append.
  rewrite len_app. change (len [x]) with 1.
  destruct (Z.ltb_spec m (len d + 1)) as [Hlt|Hge]; [|lia].
  destruct d as [|y d]; [cbn in H; lia | reflexivity].
Qed.

Lemma deque_append_room (m x : Z) (d : list Z) :
  len d < m -> Streamer.deque_append m x d = d ++ [x].
Proof.
  intros H. unfold Streamer.deque_append.
  rewrite len_app. change (len [x]) with 1.
  destruct (Z.ltb_spec m (len d + 1)) as [Hlt|Hge]; [lia|reflexivity].
Qed.

Lemma frombuffer_length (fuel : nat) :
  forall (bs : list byte) (k : nat),
    List.length bs = (4 * k)%nat -> (k <= fuel)%nat ->
    List.length (Streamer.frombuffer fuel bs) = k.
Proof.
  induction fuel as [|fuel IH]; intros bs k Hl Hk.
  - cbn. lia.
  - cbn [Streamer.frombuffer]. destruct bs as [|b bs'].
    + cbn [List.length] in *. lia.
    + cbn [List.length] in *. destruct k as [|k]; [lia|].
      f_equal. apply IH; [|lia]. rewrite length_skipn.
      cbn [List.length]. lia.
Qed.

Lemma reshape_fits (data : list Z) (nCh np : Z) :
  0 < nCh -> len data = nCh * np ->
  exists block, Streamer.reshape data nCh = Ret block.
Proof.
  intros Hc Hl. unfold Streamer.reshape.
  destruct (Z.leb_spec nCh 0) as [H|H]; [lia|].
  rewrite Hl, Z.mul_comm, Z_mod_mult. cbn [negb Z.eqb].
  eexists. reflexivity.
Qed.

Lemma put_datablock_fits (msg : rda_msg_data_full_t) (st : Streamer.State) :
  0 < nChannels (Streamer.buf st) ->
  block_fits (nChannels (Streamer.buf st)) msg ->
  exists st',
    Streamer.put_datablock msg st = (Ret tt, st') /\
    Streamer.timelog st'
    = Streamer.deque_append Streamer.timelog_maxlen
        (Streamer.clock st (Streamer.n_reads st)) (Streamer.timelog st) /\
    Streamer.n_reads st' = S (Streamer.n_reads st) /\
    Streamer.clock st' = Streamer.clock st /\
    nChannels (Streamer.buf st') = nChannels (Streamer.buf st).
Proof.
  intros Hc [Hp Hf]. unfold sizeof_c_float in Hf.
  unfold Streamer.put_datablock.
  destruct (reshape_fits
              (Streamer.frombuffer (List.length (fData msg)) (fData msg))
              (nChannels (Streamer.buf st)) (nPoints msg) Hc) as [block Hb].
  { unfold len in *.
    rewrite (frombuffer_length _ _
               (Z.to_nat (nChannels (Streamer.buf st) * nPoints msg))); lia. }
  unfold bind at 1. unfold reads at 1. unfold bind at 1.
  unfold lift_res at 1. rewrite Hb.
  eexists. split; [reflexivity|]. repeat split.
Qed.

Lemma put_datablocks_timelog (msgs : list rda_msg_data_full_t) :
  forall st : Streamer.State,
    0 < nChannels (Streamer.buf st) ->
    Forall (block_fits (nChannels (Streamer.buf st))) msgs ->
    len (Streamer.timelog st) <= Streamer.timelog_maxlen ->
    fst (put_datablocks msgs st) = Ret tt /\
    Streamer.timelog (snd (put_datablocks msgs st))
    = keep_last Streamer.timelog_maxlen
        (Streamer.timelog st
         ++ map (Streamer.clock st)
              (seq (Streamer.n_reads st) (List.length msgs))).
Proof.
  assert (Hm : 0 <= Streamer.timelog_maxlen) by (unfold Streamer.timelog_maxlen; lia).
  induction msgs as [|m rest IH]; intros st Hc Hwf Hlen.
  - cbn. rewrite app_nil_r, keep_last_short by exact Hlen. split; reflexivity.
  - inversion Hwf as [|? ? Hfit Hrest]; subst.
    destruct (put_datablock_fits m st Hc Hfit)
      as (st1 & E & Ht & Hr & Hk & Hn).
    cbn [put_datablocks]. unfold bind. rewrite E.
    rewrite deque_append_keep_last in Ht by exact Hlen.
    destruct (IH st1) as [I1 I2].
    + rewrite Hn. exact Hc.
    + rewrite Hn. exact Hrest.
    + rewrite Ht. apply len_keep_last. exact Hm.
    + split; [exact I1|]. rewrite I2, Ht, Hr, Hk.
      rewrite keep_last_app by exact Hm.
      cbn [List.length seq map]. rewrite <- app_assoc. reflexivity.
Qed.

End TimeLog.

Section TimeLogClaim.
Import rdadefs ringbuffer.

(** C8: the worker's time log is a bounded FIFO.  It starts empty; for
    every sequence of received data blocks the worker appends one clock
    reading per block, so that the log holds the last 100000 of the
    readings; it never holds more than 100000 entries; and appending to
    a full log drops its oldest entry. *)
Theorem timelog_bounded_fifo
    (msgs : list rda_msg_data_full_t) (st : Streamer.State)
    (t : Z) (d : list Z)
    (Hch : 0 < nChannels (Streamer.buf st))
    (Hwf : Forall (block_fits (nChannels (Streamer.buf st))) msgs)
    (Hlen : len (Streamer.timelog st) <= Streamer.timelog_maxlen)
    (Hfull : len d = Streamer.timelog_maxlen) :
  let out := put_datablocks msgs st in
  Streamer.timelog_maxlen = 100000 /\
  (forall s c raw arr clk,
     Streamer.timelog (Streamer.init s c raw arr clk) = []) /\
  fst out = Ret tt /\
  Streamer.timelog (snd out)
  = keep_last Streamer.timelog_maxlen
      (Streamer.timelog st
       ++ map (Streamer.clock st)
            (seq (Streamer.n_reads st) (List.length msgs))) /\
  len (Streamer.timelog (snd out)) <= Streamer.timelog_maxlen /\
  Streamer.deque_append Streamer.timelog_maxlen t d = tl d ++ [t].
Proof.
  cbv zeta. split; [reflexivity|]. split; [reflexivity|].
  destruct (put_datablocks_timelog msgs st Hch Hwf Hlen) as [H1 H2].
  split; [exact H1|]. split; [exact H2|]. split.
  - rewrite H2. apply len_keep_last. unfold Streamer.timelog_maxlen. lia.
  - apply deque_append_full; [unfold Streamer.timelog_maxlen; lia | exact Hfull].
Qed.

Lemma timelog_bounded_fifo_witness :
  let out := put_datablocks [Samples.data_msg; Samples.data_msg]
               Samples.idle_streamer in
  fst out = Ret tt /\
  Streamer.timelog (snd out) = [100; 101] /\
  Streamer.deque_append Streamer.timelog_maxlen 7
    (repeat 0 (Z.to_nat Streamer.timelog_maxlen))
  = tl (repeat 0 (Z.to_nat Streamer.timelog_maxlen)) ++ [7].
Proof.
  cbv zeta.
  assert (Hch : 0 < nChannels (Streamer.buf Samples.idle_streamer))
    by (cbn; lia).
  assert (Hwf : Forall (block_fits (nChannels (Streamer.buf Samples.idle_streamer)))
                  [Samples.data_msg; Samples.data_msg]).
  { repeat constructor; cbn; lia. }
  assert (Hlen : len (Streamer.timelog Samples.idle_streamer)
                 <= Streamer.timelog_maxlen)
    by (unfold Streamer.timelog_maxlen; cbn; lia).
  assert (Hfull : len (repeat 0 (Z.to_nat Streamer.timelog_maxlen))
                  = Streamer.timelog_maxlen).
  { unfold len. rewrite repeat_length. unfold Streamer.timelog_maxlen. lia. }
  destruct (timelog_bounded_fifo [Samples.data_msg; Samples.data_msg]
              Samples.idle_streamer 7
              (repeat 0 (Z.to_nat Streamer.timelog_maxlen))
              Hch Hwf Hlen Hfull) as (_ & _ & H1 & H2 & _ & H3).
  split; [exact H1|]. split; [|exact H3].
  rewrite H2. reflexivity.
Defined.

End TimeLogClaim.

(** ** Stopping the worker *)

Section Stopping.
Import rdadefs ringbuffer.

Lemma stop_streaming_puts (flush : bool) (st : Client.State) :
  fst (Client.is_streaming st) = Ret true ->
  exists st',
    Client.stop_streaming flush st = (Ret tt, st') /\
    Client.q st'
    = Client.q st ++ "stop" :: (if flush then ["save_timelog"] else []).
Proof.
  intros H. unfold Client.stop_streaming. unfold bind at 1.
  rewrite is_streaming_value in *. cbn [fst] in H. injection H as ->.
  cbn [negb]. destruct flush.
  - eexists. split; [reflexivity|]. cbn. rewrite <- app_assoc. reflexivity.
  - eexists. split; [reflexivity|]. reflexivity.
Qed.

Lemma run_loop_stop (G : list byte) (fuel : nat) (st : Streamer.State) :
  Streamer.run_loop G (S fuel) (Some "stop") st = (Ret tt, st).
Proof. reflexivity. Qed.

(** C10 (the code departs from the claim): the client, while streaming,
    calls [stop_streaming] with the flag set; 'stop' is put on the queue
    before 'save_timelog'.  When these commands reach a worker that is
    receiving ordinary frames, the worker leaves its loop on 'stop' and
    saves the time log once.  When they reach a worker that has just
    handled the server's stop frame, and so has put a 'stop' of its own
    on the queue, the worker leaves the loop on its own 'stop', takes
    the client's 'stop' as the one further command, and exits: the time
    log is never saved and 'save_timelog' is left on the queue. *)
Theorem timelog_not_saved_after_stop_frame :
  fst (Client.is_streaming Samples.streaming_client) = Ret true /\
  fst (Client.stop_streaming true Samples.streaming_client) = Ret tt /\
  Samples.flush_puts = ["stop"; "save_timelog"] /\
  (let out := Streamer.run Samples.guid_bytes 4
                Samples.worker_stopped_by_client in
   fst out = Ret tt /\
   Streamer.saved (snd out) = [[100]] /\
   Streamer.q (snd out) = []) /\
  (let out := Streamer.run Samples.guid_bytes 4
                Samples.worker_stopped_by_server in
   fst out = Ret tt /\
   Streamer.timelog (snd out) = [100] /\
   Streamer.saved (snd out) = [] /\
   Streamer.q (snd out) = ["save_timelog"]).
Proof.
  cbv zeta. repeat split; vm_compute; reflexivity.
Qed.

End Stopping.

(** * Further properties of the codec *)

Section CodecStream.
Import rdadefs rdatools.

Lemma len_concat_total (s : socket) : len (List.concat s) = total_len s.
Proof.
  induction s as [|c r IH]; [reflexivity|].
  cbn [List.concat]. rewrite len_app, total_len_cons, IH. reflexivity.
Qed.

(** The loop hands back the next [varLength - n] bytes of the stream,
    however the network has cut it into segments, and leaves the rest
    of the stream on the socket. *)
Lemma read_var_stream (varLength : Z) :
  forall (s : socket) (fuel : nat) (n : Z) (acc : list byte),
    (List.length s < fuel)%nat ->
    0 <= varLength - n <= total_len s ->
    exists s',
      read_var fuel varLength n acc s
      = (Ret (acc ++ firstn (Z.to_nat (varLength - n)) (List.concat s)), s') /\
      List.concat s' = skipn (Z.to_nat (varLength - n)) (List.concat s).
Proof.
  induction s as [|c rest IH]; intros fuel n acc Hf H.
  - destruct fuel as [|fuel]; [cbn in Hf; lia|].
    cbn [total_len fold_right] in H. cbn [read_var].
    destruct (Z.ltb_spec n varLength) as [Hlt|Hge]; [lia|].
    exists []. replace (varLength - n) with 0 by lia.
    cbn. rewrite app_nil_r. split; reflexivity.
  - destruct fuel as [|fuel]; [cbn in Hf; lia|].
    cbn [List.length] in Hf. rewrite total_len_cons in H.
    cbn [read_var].
    destruct (Z.ltb_spec n varLength) as [Hlt|Hge].
    + unfold bind at 1. cbn [recv_into].
      destruct (Z.leb_spec (len c) (varLength - n)) as [Hle|Hgt].
      * destruct (IH fuel (n + len c) (acc ++ c)) as (s' & E & Hs');
          [lia | lia |].
        exists s'. rewrite E. cbn [List.concat]. split.
        -- f_equal. f_equal. rewrite <- app_assoc. f_equal.
           rewrite firstn_app.
           rewrite (firstn_all2 c) by (unfold len in *; lia).
           f_equal. f_equal. unfold len in *. lia.
        -- rewrite Hs'. rewrite skipn_app.
           rewrite (skipn_all2 c) by (unfold len in *; lia).
           cbn [app]. f_equal. unfold len in *. lia.
      * destruct fuel as [|fuel]; [lia|].
        cbn [read_var]. pose proof (len_nonneg c) as Hc.
        rewrite len_firstn by lia.
        destruct (Z.ltb_spec (n + (varLength - n)) varLength) as [Hlt'|Hge'];
          [lia|].
        exists (skipn (Z.to_nat (varLength - n)) c :: rest).
        cbn [List.concat]. rewrite firstn_app, skipn_app.
        replace (Z.to_nat (varLength - n) - List.length c)%nat with O
          by (unfold len in *; lia).
        cbn [firstn skipn]. rewrite app_nil_r. split; reflexivity.
    + exists (c :: rest). replace (varLength - n) with 0 by lia.
      cbn [Z.to_nat firstn skipn]. rewrite app_nil_r. split; reflexivity.
Qed.

(** Receiving the fixed part: when the next segment holds at least [k]
    bytes, the receive yields the next [k] bytes of the stream. *)
Lemma recv_into_stream (k : Z) (c : list byte) (rest : socket) :
  0 <= k <= len c ->
  exists s',
    recv_into k (c :: rest) = (Ret (firstn (Z.to_nat k) (List.concat (c :: rest))), s') /\
    List.concat s' = skipn (Z.to_nat k) (List.concat (c :: rest)) /\
    (List.length s' <= S (List.length rest))%nat.
Proof.
  intros H. cbn [recv_into List.concat].
  rewrite firstn_app, skipn_app.
  replace (Z.to_nat k - List.length c)%nat with O by (unfold len in *; lia).
  cbn [firstn skipn]. rewrite app_nil_r.
  destruct (Z.leb_spec (len c) k) as [Hle|Hgt].
  - exists rest. rewrite (firstn_all2 c), (skipn_all2 c) by (unfold len in *; lia).
    repeat split. cbn. lia.
  - eexists. repeat split. cbn. lia.
Qed.

Lemma recv_into_short (k : Z) (s : socket) :
  0 < k -> short_read k s ->
  exists c, recv_into k s = (Ret c, tl s) /\ len c < k.
Proof.
  intros Hk. destruct s as [|c rest]; cbn [short_read]; intros H.
  - exists []. split; [reflexivity | cbn; lia].
  - exists c. cbn [recv_into tl].
    destruct (Z.leb_spec (len c) k) as [Hle|Hgt]; [|lia].
    split; [reflexivity | exact H].
Qed.

Lemma le_int32_firstn (k : nat) (bs : list byte) :
  (4 <= k)%nat -> le_int32 (firstn k bs) = le_int32 bs.
Proof.
  intros H. unfold le_int32, le_uint32. rewrite firstn_firstn.
  replace (Nat.min 4 k) with 4%nat by lia. reflexivity.
Qed.

Lemma slice_of_prefix {A : Type} (a b k : Z) (l : list A) :
  0 <= a -> b <= k ->
  slice a b (firstn (Z.to_nat k) l) = slice a b l.
Proof.
  intros Ha Hb. unfold slice. rewrite skipn_firstn_comm, firstn_firstn.
  f_equal. lia.
Qed.

Lemma slice_of_suffix {A : Type} (a b k : Z) (l : list A) :
  0 <= a -> 0 <= k ->
  slice a b (skipn (Z.to_nat k) l) = slice (k + a) (k + b) l.
Proof.
  intros Ha Hk. unfold slice. rewrite skipn_skipn. f_equal; [lia|].
  f_equal. lia.
Qed.

Lemma skipn_as_slice {A : Type} (a b : Z) (l : list A) :
  0 <= a -> len l <= b -> skipn (Z.to_nat a) l = slice a b l.
Proof.
  intros Ha Hb. unfold slice. rewrite firstn_all2; [reflexivity|].
  rewrite length_skipn. unfold len in *. lia.
Qed.

End CodecStream.

Section CodecDecode.
Import rdadefs rdatools.

(** X1: a start message is decoded from the byte stream alone.  When
    the fixed part arrives in one segment and the stream holds the whole
    frame body, the reader returns the message whose fields are the
    corresponding ranges of the stream, however the variable part is
    cut into segments, and leaves on the socket exactly the bytes that
    follow the frame. *)
Theorem start_msg_decoded_from_stream
    (fuel : nat) (hdr : rda_msg_hdr_t) (c0 : list byte) (rest : socket)
    (Hfixed : sizeof_start - sizeof_hdr <= len c0)
    (Hch : 0 <= le_int32 c0)
    (Hsize : sizeof_start + le_int32 c0 * 8 <= nSize hdr)
    (Hbody : nSize hdr - sizeof_hdr <= total_len (c0 :: rest))
    (Hfuel : (List.length (c0 :: rest) < fuel)%nat) :
  let bytes := List.concat (c0 :: rest) in
  let nCh := le_int32 c0 in
  exists s',
    rda_read_start_msg fuel hdr (c0 :: rest)
    = (Ret {| start_hdr := hdr;
              start_nChannels := nCh;
              dSamplingInterval := slice 4 12 bytes;
              dResolutions := slice 12 (12 + nCh * 8) bytes;
              sChannelNames := slice (12 + nCh * 8) (nSize hdr - 24) bytes |},
       s') /\
    List.concat s' = skipn (Z.to_nat (nSize hdr - 24)) bytes.
Proof.
  cbv zeta. unfold sizeof_start, sizeof_hdr in *.
  set (bytes := List.concat (c0 :: rest)).
  assert (Hlen : len bytes = total_len (c0 :: rest))
    by apply len_concat_total.
  assert (Hc0 : le_int32 c0 = le_int32 bytes).
  { unfold bytes. cbn [List.concat]. unfold le_int32, le_uint32.
    rewrite firstn_app.
    replace (4 - List.length c0)%nat with O by (unfold len in *; lia).
    cbn [firstn]. rewrite app_nil_r. reflexivity. }
  unfold rda_read_start_msg, sizeof_start, sizeof_hdr.
  destruct (Z.ltb_spec (nSize hdr) 36) as [Hlt|_]; [lia|].
  destruct (recv_into_stream (36 - 24) c0 rest) as (s1 & E1 & Hs1 & Hl1);
    [lia|].
  fold bytes in E1, Hs1. change (36 - 24) with 12 in *.
  unfold bind at 1. rewrite E1.
  unfold bind at 1. unfold lift_res at 1. unfold check_received.
  rewrite len_firstn by lia. rewrite Z.eqb_refl.
  rewrite le_int32_firstn by lia. rewrite <- Hc0.
  unfold bind at 1. unfold lift_res, start_full, sizeof_c_double.
  destruct (Z.ltb_spec (le_int32 c0) 0) as [Hn|_]; [lia|].
  destruct (Z.ltb_spec (nSize hdr - 36 - le_int32 c0 * 8) 0) as [Hn|_]; [lia|].
  cbn [orb].
  set (vl := le_int32 c0 * 8 + (nSize hdr - 36 - le_int32 c0 * 8)).
  assert (Hvl : vl = nSize hdr - 36) by (unfold vl; lia).
  assert (Ht1 : total_len s1 = len bytes - 12).
  { rewrite <- len_concat_total, Hs1, len_skipn; lia. }
  destruct (read_var_stream vl s1 fuel 0 []) as (s2 & E2 & Hs2).
  { cbn [List.length] in Hfuel. lia. }
  { lia. }
  unfold bind. rewrite E2. unfold ret. exists s2. split.
  - f_equal. replace (vl - 0) with vl by lia. cbn [app]. rewrite Hs1.
    f_equal. f_equal.
    + change 4%nat with (Z.to_nat 4). rewrite skipn_firstn_comm.
      unfold slice. f_equal.
    + rewrite slice_of_prefix by lia.
      change 12%nat with (Z.to_nat 12). rewrite slice_of_suffix by lia.
      f_equal; lia.
    + rewrite (skipn_as_slice (le_int32 c0 * 8) vl).
      * rewrite slice_of_prefix by lia.
        change 12%nat with (Z.to_nat 12). rewrite slice_of_suffix by lia.
        f_equal; lia.
      * lia.
      * unfold len. rewrite length_firstn. lia.
  - rewrite Hs2, Hs1. replace (vl - 0) with vl by lia.
    change 12%nat with (Z.to_nat 12). rewrite skipn_skipn. f_equal. lia.
Qed.

Lemma le_int32_first_segment (k : nat) (c0 : list byte) (tail : list byte) :
  (k + 4 <= List.length c0)%nat ->
  le_int32 (skipn k (c0 ++ tail)) = le_int32 (skipn k c0).
Proof.
  intros H. unfold le_int32, le_uint32. rewrite skipn_app, firstn_app.
  replace (k - List.length c0)%nat with O by lia.
  rewrite length_skipn.
  replace (4 - (List.length c0 - k))%nat with O by lia.
  cbn [firstn skipn]. rewrite app_nil_r. reflexivity.
Qed.

Lemma rda_read_data_msg_stream
    (fuel : nat) (hdr : rda_msg_hdr_t) (nCh : Z)
    (c0 : list byte) (rest : socket)
    (Hfixed : sizeof_data - sizeof_hdr <= len c0)
    (Hpts : 0 <= nCh * le_int32 (skipn 4 c0))
    (Hsize : sizeof_data + nCh * le_int32 (skipn 4 c0) * 4 <= nSize hdr)
    (Hbody : nSize hdr - sizeof_hdr <= total_len (c0 :: rest))
    (Hfuel : (List.length (c0 :: rest) < fuel)%nat) :
  let bytes := List.concat (c0 :: rest) in
  let nPts := le_int32 (skipn 4 c0) in
  exists s',
    rda_read_data_msg fuel hdr nCh (c0 :: rest)
    = (Ret {| data_hdr := hdr;
              nBlock := le_int32 c0;
              nPoints := nPts;
              fData := slice 8 (8 + nCh * nPts * 4) bytes;
              markers := slice (8 + nCh * nPts * 4) (nSize hdr - 24) bytes |},
       s') /\
    List.concat s' = skipn (Z.to_nat (nSize hdr - 24)) bytes.
Proof.
  cbv zeta. unfold sizeof_data, sizeof_hdr in *.
  set (bytes := List.concat (c0 :: rest)).
  set (nPts := le_int32 (skipn 4 c0)) in *.
  assert (Hlen : len bytes = total_len (c0 :: rest))
    by apply len_concat_total.
  assert (Hb : le_int32 (firstn 8 bytes) = le_int32 c0).
  { rewrite le_int32_firstn by lia. unfold bytes. cbn [List.concat].
    apply (le_int32_first_segment 0). unfold len in *. lia. }
  assert (Hp : le_int32 (skipn 4 (firstn 8 bytes)) = nPts).
  { rewrite skipn_firstn_comm. rewrite le_int32_firstn by lia.
    unfold bytes, nPts. cbn [List.concat].
    apply le_int32_first_segment. unfold len in *. lia. }
  unfold rda_read_data_msg, sizeof_data, sizeof_hdr.
  destruct (Z.ltb_spec (nSize hdr) 32) as [Hlt|_]; [lia|].
  destruct (recv_into_stream (32 - 24) c0 rest) as (s1 & E1 & Hs1 & Hl1);
    [lia|].
  fold bytes in E1, Hs1. change (32 - 24) with 8 in *.
  unfold bind at 1. rewrite E1.
  unfold bind at 1. unfold lift_res at 1. unfold check_received.
  rewrite len_firstn by lia. rewrite Z.eqb_refl.
  change (Z.to_nat 8) with 8%nat. rewrite Hb, Hp.
  unfold bind at 1. unfold lift_res, data_full, sizeof_c_float.
  destruct (Z.ltb_spec (nCh * nPts) 0) as [Hn|_]; [lia|].
  destruct (Z.ltb_spec (nSize hdr - 32 - nCh * nPts * 4) 0) as [Hn|_]; [lia|].
  cbn [orb].
  set (vl := nCh * nPts * 4 + (nSize hdr - 32 - nCh * nPts * 4)).
  assert (Hvl : vl = nSize hdr - 32) by (unfold vl; lia).
  assert (Ht1 : total_len s1 = len bytes - 8).
  { rewrite <- len_concat_total, Hs1, len_skipn; lia. }
  destruct (read_var_stream vl s1 fuel 0 []) as (s2 & E2 & Hs2).
  { cbn [List.length] in Hfuel. lia. }
  { lia. }
  unfold bind. rewrite E2. unfold ret. exists s2. split.
  - f_equal. replace (vl - 0) with vl by lia. cbn [app]. rewrite Hs1.
    f_equal. f_equal.
    + rewrite slice_of_prefix by lia.
      rewrite slice_of_suffix by lia. f_equal; lia.
    + rewrite (skipn_as_slice (nCh * nPts * 4) vl).
      * rewrite slice_of_prefix by lia.
        rewrite slice_of_suffix by lia. f_equal; lia.
      * lia.
      * unfold len. rewrite length_firstn. lia.
  - rewrite Hs2, Hs1. replace (vl - 0) with vl by lia.
    rewrite skipn_skipn. f_equal. lia.
Qed.

(** X2: a data message is decoded from the byte stream alone, for the
    channel count supplied by the caller: block number and point count
    come from the fixed part, the samples and the markers are the
    ranges of the stream that follow, and the socket is left at the
    first byte after the frame. *)
Theorem data_msg_decoded_from_stream
    (fuel : nat) (hdr : rda_msg_hdr_t) (nCh : Z)
    (c0 : list byte) (rest : socket)
    (Hfixed : sizeof_data - sizeof_hdr <= len c0)
    (Hpts : 0 <= nCh * le_int32 (skipn 4 c0))
    (Hsize : sizeof_data + nCh * le_int32 (skipn 4 c0) * 4 <= nSize hdr)
    (Hbody : nSize hdr - sizeof_hdr <= total_len (c0 :: rest))
    (Hfuel : (List.length (c0 :: rest) < fuel)%nat) :
  let bytes := List.concat (c0 :: rest) in
  let nPts := le_int32 (skipn 4 c0) in
  exists s',
    rda_read_data_msg fuel hdr nCh (c0 :: rest)
    = (Ret {| data_hdr := hdr;
              nBlock := le_int32 c0;
              nPoints := nPts;
              fData := slice 8 (8 + nCh * nPts * 4) bytes;
              markers := slice (8 + nCh * nPts * 4) (nSize hdr - 24) bytes |},
       s') /\
    List.concat s' = skipn (Z.to_nat (nSize hdr - 24)) bytes.
Proof.
  cbv zeta.
  destruct (rda_read_data_msg_stream fuel hdr nCh c0 rest
              Hfixed Hpts Hsize Hbody Hfuel) as (s' & E & Hs').
  exists s'. split; [exact E | exact Hs'].
Qed.

Lemma start_msg_decoded_from_stream_witness :
  exists s',
    rda_read_start_msg 4 Samples.start_hdr_48 Samples.start_sock
    = (Ret {| start_hdr := Samples.start_hdr_48;
              start_nChannels := 1;
              dSamplingInterval := skipn 4 Samples.start_fixed;
              dResolutions := Samples.start_resolution;
              sChannelNames := Samples.start_names |}, s') /\
    List.concat s' = [].
Proof.
  destruct (start_msg_decoded_from_stream 4 Samples.start_hdr_48
              Samples.start_fixed (tl Samples.start_sock))
    as (s' & E & Hs'); try (cbn; lia).
  exists s'. split; [exact E | exact Hs'].
Defined.

Lemma data_msg_decoded_from_stream_witness :
  exists s',
    rda_read_data_msg 4 Samples.data_hdr_43 1 Samples.data_sock
    = (Ret Samples.data_msg, s') /\
    List.concat s' = [].
Proof.
  destruct (data_msg_decoded_from_stream 4 Samples.data_hdr_43 1
              Samples.data_fixed (tl Samples.data_sock))
    as (s' & E & Hs'); try (cbn; lia).
  exists s'. split; [exact E | exact Hs'].
Defined.

(** X3: a short read of the fixed part is fatal to both readers.  When
    the next segment holds fewer bytes than the fixed part, or the peer
    has closed the connection, the reader raises at once (a TypeError,
    because of the way the message of the intended exception is
    formatted), having consumed that segment. *)
Theorem fixed_part_short_read_raises
    (fuel : nat) (hdrS hdrD : rda_msg_hdr_t) (nCh : Z) (sS sD : socket)
    (HsizeS : sizeof_start <= nSize hdrS)
    (HsizeD : sizeof_data <= nSize hdrD)
    (HshortS : short_read (sizeof_start - sizeof_hdr) sS)
    (HshortD : short_read (sizeof_data - sizeof_hdr) sD) :
  rda_read_start_msg fuel hdrS sS = (Raise TypeError, tl sS) /\
  rda_read_data_msg fuel hdrD nCh sD = (Raise TypeError, tl sD).
Proof.
  unfold sizeof_start, sizeof_data, sizeof_hdr in *. split.
  - unfold rda_read_start_msg, sizeof_start, sizeof_hdr.
    destruct (Z.ltb_spec (nSize hdrS) 36) as [Hlt|_]; [lia|].
    destruct (recv_into_short (36 - 24) sS) as (c & E & Hc);
      [lia | exact HshortS |].
    unfold bind at 1. rewrite E.
    unfold bind at 1. unfold lift_res, check_received.
    destruct (Z.eqb_spec (len c) (36 - 24)) as [Heq|_]; [lia|reflexivity].
  - unfold rda_read_data_msg, sizeof_data, sizeof_hdr.
    destruct (Z.ltb_spec (nSize hdrD) 32) as [Hlt|_]; [lia|].
    destruct (recv_into_short (32 - 24) sD) as (c & E & Hc);
      [lia | exact HshortD |].
    unfold bind at 1. rewrite E.
    unfold bind at 1. unfold lift_res, check_received.
    destruct (Z.eqb_spec (len c) (32 - 24)) as [Heq|_]; [lia|reflexivity].
Qed.

Lemma fixed_part_short_read_raises_witness :
  rda_read_start_msg 4 Samples.start_hdr_48 [] = (Raise TypeError, []) /\
  rda_read_data_msg 4 Samples.data_hdr_43 1 [[x07; x00]; [x00; x00]]
    = (Raise TypeError, [[x00; x00]]).
Proof.
  apply (fixed_part_short_read_raises 4 Samples.start_hdr_48
           Samples.data_hdr_43 1 [] [[x07; x00]; [x00; x00]]);
    vm_compute; first [exact I | reflexivity | discriminate].
Defined.

Lemma zip_all_equal_prefix (l1 l2 : list byte) :
  zip_all_equal l1 l2 = true
  <-> firstn (Nat.min (List.length l1) (List.length l2)) l1
      = firstn (Nat.min (List.length l1) (List.length l2)) l2.
Proof.
  revert l2. induction l1 as [|b1 t1 IH]; intros [|b2 t2]; cbn;
    try (split; reflexivity).
  destruct (Byte.eqb b1 b2) eqn:E.
  - apply byte_dec_bl in E. subst b2. rewrite IH.
    split; [intros ->; reflexivity | intros [= H]; exact H].
  - split; [discriminate|]. intros [= -> _].
    rewrite (byte_dec_lb eq_refl) in E. discriminate E.
Qed.

(** X4: signature validation compares the two byte sequences over
    their common length only, as [zip] does: it answers true exactly
    when the shorter one is a prefix of the other.  In particular it
    answers true when either sequence is empty. *)
Theorem validate_rda_guid_compares_common_prefix
    (G : list byte) (hdr : rda_msg_hdr_t) :
  let m := Nat.min (List.length (guid hdr)) (List.length G) in
  (validate_rda_guid G hdr = true <-> firstn m (guid hdr) = firstn m G) /\
  (guid hdr = [] \/ G = [] -> validate_rda_guid G hdr = true).
Proof.
  cbv zeta. unfold validate_rda_guid. split.
  - apply zip_all_equal_prefix.
  - intros [H|H]; rewrite H; [reflexivity|].
    destruct (guid hdr); reflexivity.
Qed.

End CodecDecode.

(** * Further properties of the client *)

Section ClientSession.
Import rdadefs ringbuffer.

(** The state in which the handshake loop is entered. *)
Lemma await_start_entry (G : list byte) (fuel : nat) (timeout : Z)
    (st : Client.State) :
  exists st2,
    Client.await_start G fuel timeout st
    = Client.handshake_loop G fuel timeout
        (Client.clock st2 - Client.dt (Client.sched st (S (Client.pos st))))
        (Client.clock st2) st2 /\
    Client.sock st2 = Client.sock st /\
    Client.start_msg st2 = Client.start_msg st /\
    Client.streamer st2 = Client.streamer st /\
    Client.streamer_alive st2 = Client.streamer_alive st /\
    Client.buffer_size st2 = Client.buffer_size st /\
    Client.buffer_window st2 = Client.buffer_window st /\
    Client.q st2 = Client.q st /\
    is_initialized (Client.buf st2) = is_initialized (Client.buf st).
Proof.
  exists (Client.advance (Client.advance
            (Client.set_log
               (Client.log st
                ++ [mk_log "rdaclient" INFO
                      "waiting for an rda start message..." []]) st))).
  split.
  - unfold Client.await_start, bind, Client.logging, modify, Client.time_time.
    cbn [Client.advance Client.clock Client.sched Client.pos Client.set_log].
    f_equal. lia.
  - cbn. repeat split. destruct (Client.streamer_alive st); reflexivity.
Qed.

(** X5: when the connection is closed, or delivers fewer than 24 bytes
    in its next segment, [start_streaming] on an idle client fails in
    its first pass through the loop: it raises, spawns no worker,
    leaves the client idle and keeps the cached start message. *)
Theorem start_streaming_short_header_raises
    (G : list byte) (fuel : nat) (timeout : Z) (st : Client.State)
    (Hidle : fst (Client.is_streaming st) = Ret false)
    (Hshort : short_read sizeof_hdr (Client.sock st))
    (Htime : Client.dt (Client.sched st (S (Client.pos st))) < timeout)
    (Hfuel : (0 < fuel)%nat) :
  exists st',
    Client.start_streaming G fuel timeout st = (Raise TypeError, st') /\
    fst (Client.is_streaming st') = Ret false /\
    Client.start_msg st' = Client.start_msg st /\
    Client.sock st' = tl (Client.sock st) /\
    is_initialized (Client.buf st') = is_initialized (Client.buf st).
Proof.
  unfold Client.start_streaming. unfold bind at 1.
  rewrite is_streaming_value in *. cbn [fst] in Hidle.
  injection Hidle as Hidle. rewrite Hidle.
  destruct (await_start_entry G fuel timeout st)
    as (st2 & E & Hsock & Hmsg & Hstr & Hal & _ & _ & _ & Hini).
  unfold bind at 1. rewrite E. destruct fuel as [|fuel]; [lia|].
  cbn [Client.handshake_loop].
  destruct (Z.ltb_spec (Client.clock st2
              - (Client.clock st2
                 - Client.dt (Client.sched st (S (Client.pos st))))) timeout)
    as [_|Hge]; [|lia].
  unfold bind at 1. unfold Client.handshake_body. unfold bind at 1.
  unfold Client.on_sock at 1.
  destruct (recv_into_short sizeof_hdr (Client.sock st2)) as (c & Er & Hc).
  { unfold sizeof_hdr. lia. }
  { rewrite Hsock. exact Hshort. }
  rewrite Er. unfold bind at 1. unfold lift_res, rdatools.check_received.
  destruct (Z.eqb_spec (len c) sizeof_hdr) as [Heq|_]; [lia|].
  eexists. split; [reflexivity|].
  rewrite is_streaming_value. cbn. rewrite Hstr, Hal, Hidle, Hmsg, Hsock, Hini.
  repeat split.
Qed.

Lemma start_streaming_short_header_raises_witness :
  exists st',
    Client.start_streaming Samples.guid_bytes 4 10
      (Client.init 1000 10 [] 0 Samples.quiet) = (Raise TypeError, st') /\
    fst (Client.is_streaming st') = Ret false /\
    Client.start_msg st' = None.
Proof.
  destruct (start_streaming_short_header_raises Samples.guid_bytes 4 10
              (Client.init 1000 10 [] 0 Samples.quiet))
    as (st' & E & Hs & Hm & _).
  - reflexivity.
  - exact I.
  - cbn. lia.
  - lia.
  - exists st'. split; [exact E|]. split; [exact Hs | exact Hm].
Defined.

Lemma finish_start_post (st st' : Client.State) :
  Client.finish_start st = (Ret tt, st') ->
  Client.streamer st' = Some tt /\ Client.streamer_alive st' = true /\
  is_initialized (Client.buf st') = true /\
  Client.start_msg st' = Client.start_msg st /\
  Client.sock st' = Client.sock st /\
  Client.q st' = Client.q st.
Proof.
  destruct (is_initialized (Client.buf st)) eqn:Hinit.
  - rewrite finish_start_initialized by exact Hinit.
    intros [= <-]. cbn. repeat split. exact Hinit.
  - destruct (Client.start_msg st) as [m|] eqn:Hm.
    + unfold Client.finish_start, bind, get. rewrite Hinit.
      cbn [negb]. unfold Client.logging at 1. unfold modify at 1.
      cbn [Client.start_msg Client.set_log]. rewrite Hm.
      unfold lift_res, initialize. cbn [Client.buf Client.set_log].
      rewrite Hinit. intros [= <-]. cbn. repeat split. exact Hm.
    + unfold Client.finish_start, bind, get. rewrite Hinit.
      cbn [negb]. unfold Client.logging at 1. unfold modify at 1.
      cbn [Client.start_msg Client.set_log]. rewrite Hm.
      discriminate.
Qed.

(** X6: whenever [start_streaming] returns normally, the client was
    idle before the call and is streaming after it, with an initialized
    buffer. *)
Theorem start_streaming_returns_streaming
    (G : list byte) (fuel : nat) (timeout : Z) (st st' : Client.State)
    (Hret : Client.start_streaming G fuel timeout st = (Ret tt, st')) :
  fst (Client.is_streaming st) = Ret false /\
  fst (Client.is_streaming st') = Ret true /\
  is_initialized (Client.buf st') = true.
Proof.
  unfold Client.start_streaming in Hret. unfold bind at 1 in Hret.
  rewrite is_streaming_value in *. cbn [fst].
  destruct (match Client.streamer st with
            | Some _ => Client.streamer_alive st | None => false end);
    [discriminate Hret|].
  unfold bind in Hret.
  destruct (Client.await_start G fuel timeout st) as [[e|x|] st1];
    try discriminate Hret.
  apply finish_start_post in Hret. destruct Hret as (Hs & Ha & Hi & _).
  rewrite is_streaming_value, Hs, Ha. repeat split. exact Hi.
Qed.

Lemma start_streaming_returns_streaming_witness :
  fst (Client.is_streaming Samples.fresh_client) = Ret false /\
  fst (Client.is_streaming Samples.streaming_client) = Ret true /\
  is_initialized (Client.buf Samples.streaming_client) = true.
Proof.
  apply (start_streaming_returns_streaming Samples.guid_bytes 4 10
           Samples.fresh_client Samples.streaming_client).
  vm_compute. reflexivity.
Defined.

Lemma handshake_body_start_frame (G : list byte) (fuel : nat)
    (bytes : list byte) (s1 s2 : socket) (msg : rda_msg_start_full_t)
    (st : Client.State) :
  Client.sock st = bytes :: s1 ->
  len bytes = sizeof_hdr ->
  nType (hdr_of_bytes bytes) = RDA_START_MSG ->
  rdatools.rda_read_start_msg fuel (hdr_of_bytes bytes) s1 = (Ret msg, s2) ->
  exists st',
    Client.handshake_body G fuel st = (Ret true, st') /\
    Client.start_msg st' = Some msg /\
    Client.sock st' = s2 /\
    Client.streamer st' = Client.streamer st /\
    Client.streamer_alive st' = Client.streamer_alive st /\
    Client.buffer_size st' = Client.buffer_size st /\
    Client.buffer_window st' = Client.buffer_window st /\
    Client.q st' = Client.q st /\
    Client.buf st' = Client.buf st.
Proof.
  intros Hs Hl Ht Hr. unfold Client.handshake_body.
  unfold bind at 1. unfold Client.on_sock at 1.
  rewrite Hs, recv_header by exact Hl.
  unfold bind at 1. unfold lift_res, rdatools.check_received.
  rewrite Hl, Z.eqb_refl.
  destruct (rdatools.validate_rda_guid G (hdr_of_bytes bytes)).
  - unfold bind at 1. unfold ret at 1. unfold Client.handshake_dispatch.
    unfold bind at 1. unfold reads at 1. rewrite Ht, Z.eqb_refl.
    unfold bind at 1. unfold Client.on_sock at 1.
    cbn [Client.sock Client.set_sock]. rewrite Hr.
    eexists. split; [reflexivity|]. cbn. repeat split.
  - unfold bind at 1. unfold Client.logging at 1. unfold modify at 1.
    unfold Client.handshake_dispatch.
    unfold bind at 1. unfold reads at 1. rewrite Ht, Z.eqb_refl.
    unfold bind at 1. unfold Client.on_sock at 1.
    cbn [Client.sock Client.set_sock Client.set_log]. rewrite Hr.
    eexists. split; [reflexivity|]. cbn. repeat split.
Qed.

(** X7: the handshake on a start frame.  When an idle client with an
    uninitialized buffer finds a start frame next on its socket and the
    timeout is longer than the time between its two clock readings,
    [start_streaming] returns normally: the decoded start message is
    cached, the socket is left just after the frame, the buffer is
    initialized empty with the message's channel count and the client's
    configured capacity and window, and the client is streaming. *)
Theorem start_streaming_on_start_frame
    (G : list byte) (fuel : nat) (timeout : Z) (st : Client.State)
    (bytes : list byte) (s1 s2 : socket) (msg : rda_msg_start_full_t)
    (Hidle : fst (Client.is_streaming st) = Ret false)
    (Huninit : is_initialized (Client.buf st) = false)
    (Hsock : Client.sock st = bytes :: s1)
    (Hlen : len bytes = sizeof_hdr)
    (Htype : nType (hdr_of_bytes bytes) = RDA_START_MSG)
    (Hread : rdatools.rda_read_start_msg fuel (hdr_of_bytes bytes) s1
             = (Ret msg, s2))
    (Htime : Client.dt (Client.sched st (S (Client.pos st))) < timeout) :
  exists st',
    Client.start_streaming G fuel timeout st = (Ret tt, st') /\
    Client.start_msg st' = Some msg /\
    Client.sock st' = s2 /\
    fst (Client.is_streaming st') = Ret true /\
    Client.buf st'
    = {| is_initialized := true; nChannels := start_nChannels msg;
         bufSize := Client.buffer_size st;
         pocketSize := Client.buffer_window st; rows := [] |}.
Proof.
  unfold Client.start_streaming. unfold bind at 1.
  rewrite is_streaming_value in Hidle. cbn [fst] in Hidle.
  injection Hidle as Hidle. rewrite is_streaming_value, Hidle.
  destruct (await_start_entry G fuel timeout st)
    as (st2 & E & Hs2 & Hm2 & Hstr2 & Hal2 & Hbs2 & Hbw2 & _ & Hini2).
  unfold bind at 1. rewrite E.
  destruct fuel as [|fuel].
  { unfold rdatools.rda_read_start_msg in Hread.
    destruct (nSize (hdr_of_bytes bytes) <? sizeof_start); [discriminate|].
    unfold bind, lift_res in Hread.
    destruct (recv_into _ s1) as [[r| |] s3]; try discriminate.
    destruct (rdatools.check_received _ _); try discriminate.
    destruct (start_full _ _); discriminate. }
  cbn [Client.handshake_loop].
  destruct (Z.ltb_spec (Client.clock st2
              - (Client.clock st2
                 - Client.dt (Client.sched st (S (Client.pos st))))) timeout)
    as [_|Hge]; [|lia].
  destruct (handshake_body_start_frame G (S fuel) bytes s1 s2 msg st2)
    as (st3 & Eb & Hm3 & Hs3 & Hstr3 & Hal3 & Hbs3 & Hbw3 & _ & Hb3);
    [congruence | exact Hlen | exact Htype | exact Hread |].
  unfold bind at 1. rewrite Eb. unfold ret at 1.
  destruct (finish_start_cached st3 msg) as (st' & Ef & Hstr & Hal & Hb).
  { rewrite Hb3, Hini2. exact Huninit. }
  { exact Hm3. }
  rewrite Ef. exists st'. split; [reflexivity|].
  destruct (finish_start_post st3 st' Ef) as (_ & _ & _ & Hm' & Hs' & _).
  rewrite is_streaming_value, Hstr, Hal, Hm', Hs', Hb, Hbs3, Hbw3, Hbs2, Hbw2.
  repeat split; assumption.
Qed.

Lemma start_streaming_on_start_frame_witness :
  exists st',
    Client.start_streaming Samples.guid_bytes 4 10 Samples.fresh_client
    = (Ret tt, st') /\
    Client.start_msg st' = Some Samples.start_msg_48 /\
    Client.sock st' = [] /\
    fst (Client.is_streaming st') = Ret true /\
    nChannels (Client.buf st') = 1 /\ bufSize (Client.buf st') = 1000.
Proof.
  destruct (start_streaming_on_start_frame Samples.guid_bytes 4 10
              Samples.fresh_client Samples.start_header Samples.start_sock []
              Samples.start_msg_48)
    as (st' & E & Hm & Hs & Hst & Hb).
  - reflexivity.
  - reflexivity.
  - reflexivity.
  - reflexivity.
  - reflexivity.
  - vm_compute. reflexivity.
  - cbn. lia.
  - exists st'. split; [exact E|]. split; [exact Hm|]. split; [exact Hs|].
    split; [exact Hst|]. rewrite Hb. split; reflexivity.
Defined.



End ClientSession.

Section ClientReads.
Import rdadefs ringbuffer.

Variable code : BufferErrorKind -> Z.

Lemma wait_loop_delivers (a b timeout sleep then_ : Z) :
  forall (fuel : nat) (now : Z) (st st' : Client.State) (d : list row),
    Client.wait_loop code fuel a b timeout sleep then_ now st
    = (Ret (Some d), st') ->
    ringbuffer.get_data a b (Client.buf st') = Ret d.
Proof.
  induction fuel as [|fuel IH]; intros now st st' d.
  - discriminate.
  - destruct (Z.ltb_spec (now - then_) timeout) as [Hin|Hout].
    + rewrite wait_loop_step by exact Hin.
      destruct (ringbuffer.get_data a b (Client.buf (Client.advance st)))
        as [x|e|] eqn:E.
      * intros [= <- <-]. exact E.
      * destruct e as [m| | | | |k]; try discriminate.
        destruct (negb (code k =? 3)); [discriminate|].
        unfold bind, Client.time_sleep, Client.time_time.
        destruct (sleep <? 0); [discriminate|]. apply IH.
      * discriminate.
    + rewrite wait_loop_expired by lia. discriminate.
Qed.

(** X9: [wait] hands out nothing of its own: when it returns data, the
    client is streaming and the data are what the buffer read of the
    requested range delivers in the state in which the call returns. *)
Theorem wait_returns_what_the_buffer_delivers
    (fuel : nat) (a b timeout sleep : Z) (st st' : Client.State)
    (d : list row)
    (Hret : Client.wait code fuel a b timeout sleep st = (Ret (Some d), st')) :
  fst (Client.is_streaming st) = Ret true /\
  ringbuffer.get_data a b (Client.buf st') = Ret d.
Proof.
  unfold Client.wait in Hret. unfold bind at 1 in Hret.
  rewrite is_streaming_value in *. cbn [fst].
  destruct (match Client.streamer st with
            | Some _ => Client.streamer_alive st | None => false end);
    cbn [negb] in Hret; [|discriminate Hret].
  split; [reflexivity|].
  unfold bind, Client.time_time in Hret.
  eapply wait_loop_delivers. exact Hret.
Qed.

(** X10: a timeout that the time between the two clock readings of
    [wait] already uses up (any timeout that is not positive, if the
    clock does not run backwards) makes [wait] return unavailability
    without reading the buffer at all, whether or not the data are
    there. *)
Theorem wait_without_time_never_reads
    (fuel : nat) (a b timeout sleep : Z) (st : Client.State)
    (Hstreaming : fst (Client.is_streaming st) = Ret true)
    (Htime : timeout <= Client.dt (Client.sched st (S (Client.pos st))))
    (Hfuel : (0 < fuel)%nat) :
  Client.wait code fuel a b timeout sleep st
  = (Ret None, Client.advance (Client.advance st)).
Proof.
  rewrite wait_streaming by exact Hstreaming.
  destruct fuel as [|fuel]; [lia|].
  apply wait_loop_expired.
  cbn [Client.advance Client.clock Client.sched Client.pos]. lia.
Qed.

(** X11: [wait] comes back.  With a sleep interval that is not negative
    and a clock that advances by at least one tick per action, a
    streaming client's [wait] returns a value (data or unavailability)
    within a number of polls bounded by the timeout: it neither raises
    nor polls forever. *)
Theorem wait_returns
    (fuel : nat) (a b timeout sleep : Z) (st : Client.State)
    (Hstreaming : fst (Client.is_streaming st) = Ret true)
    (Hsleep : 0 <= sleep)
    (Hclock : forall k, 1 <= Client.dt (Client.sched st k))
    (Hfuel : Z.max 0 timeout < Z.of_nat fuel) :
  exists v, fst (Client.wait code fuel a b timeout sleep st) = Ret v.
Proof.
  rewrite wait_streaming by exact Hstreaming.
  apply wait_loop_returns.
  - exact Hsleep.
  - exact Hclock.
  - apply Z.le_refl.
  - lia.
  - cbn [Client.advance Client.clock Client.sched Client.pos].
    pose proof (Hclock (S (Client.pos st))). lia.
Qed.

Lemma same_client_refl (st : Client.State) : same_client st st.
Proof.
  unfold same_client. repeat split. exists []. rewrite app_nil_r. reflexivity.
Qed.

Lemma same_client_trans (st1 st2 st3 : Client.State) :
  same_client st1 st2 -> same_client st2 st3 -> same_client st1 st3.
Proof.
  unfold same_client.
  intros (A1 & A2 & A3 & A4 & A5 & A6 & A7 & A8 & A9 & A10 & A11 & A12 & m1 & A13)
         (B1 & B2 & B3 & B4 & B5 & B6 & B7 & B8 & B9 & B10 & B11 & B12 & m2 & B13).
  repeat split; try congruence.
  exists (m1 ++ m2). rewrite B13, A13, app_assoc. reflexivity.
Qed.

Lemma advance_same_client (st : Client.State) :
  same_client st (Client.advance st).
Proof.
  unfold same_client, Client.advance. cbn.
  destruct (Client.streamer_alive st); cbn; repeat split;
    eexists; try reflexivity.
  rewrite app_nil_r. reflexivity.
Qed.

Lemma add_clock_same_client (d : Z) (st : Client.State) :
  same_client st (Client.add_clock d st).
Proof.
  unfold same_client, Client.add_clock. cbn. repeat split.
  exists []. rewrite app_nil_r. reflexivity.
Qed.

Lemma wait_loop_same_client (a b timeout sleep then_ : Z) :
  forall (fuel : nat) (now : Z) (st : Client.State),
    same_client st
      (snd (Client.wait_loop code fuel a b timeout sleep then_ now st)).
Proof.
  induction fuel as [|fuel IH]; intros now st.
  - apply same_client_refl.
  - destruct (Z.ltb_spec (now - then_) timeout) as [Hin|Hout].
    + rewrite wait_loop_step by exact Hin.
      pose proof (advance_same_client st) as H1.
      destruct (ringbuffer.get_data a b (Client.buf (Client.advance st)))
        as [x|e|]; [exact H1| |exact H1].
      destruct e as [m| | | | |k]; try exact H1.
      destruct (negb (code k =? 3)); [exact H1|].
      unfold bind, Client.time_sleep, Client.time_time.
      destruct (sleep <? 0); [exact H1|].
      eapply same_client_trans; [exact H1|].
      eapply same_client_trans; [apply advance_same_client|].
      eapply same_client_trans; [apply add_clock_same_client|].
      eapply same_client_trans; [apply advance_same_client|].
      apply IH.
    + rewrite wait_loop_expired by lia. apply same_client_refl.
Qed.

Lemma wait_same_client (fuel : nat) (a b timeout sleep : Z) (st : Client.State) :
  same_client st (snd (Client.wait code fuel a b timeout sleep st)).
Proof.
  unfold Client.wait. unfold bind at 1. rewrite is_streaming_value.
  destruct (match Client.streamer st with
            | Some _ => Client.streamer_alive st | None => false end);
    cbn [negb]; [|apply same_client_refl].
  unfold bind, Client.time_time.
  eapply same_client_trans; [apply advance_same_client|].
  eapply same_client_trans; [apply advance_same_client|].
  apply wait_loop_same_client.
Qed.

Lemma get_data_same_client (a b : Z) (st : Client.State) :
  same_client st (snd (Client.get_data a b st)).
Proof.
  destruct (client_get_data_cases a b st) as [(-> & _) | ->];
    apply advance_same_client.
Qed.

(** X12: the three read operations are read-only for the client.
    [get_data], [wait] and [poll] never change the cached start message,
    the worker handle, the command queue, the socket, the log or the
    buffer's configuration; between call and return the buffer can only
    have grown by what the worker appended. *)
Theorem reads_leave_the_client_alone
    (fuel : nat) (a b n timeout sleep : Z) (st : Client.State) :
  same_client st (snd (Client.get_data a b st)) /\
  same_client st (snd (Client.wait code fuel a b timeout sleep st)) /\
  same_client st (snd (Client.poll code fuel n timeout sleep st)).
Proof.
  split; [apply get_data_same_client|]. split; [apply wait_same_client|].
  unfold Client.poll. unfold bind at 1. rewrite is_streaming_value.
  destruct (match Client.streamer st with
            | Some _ => Client.streamer_alive st | None => false end);
    cbn [negb]; [|apply same_client_refl].
  unfold bind at 1. unfold Client.last_sample at 1.
  pose proof (advance_same_client st) as H1.
  set (st1 := Client.advance st) in *.
  set (ls := nSamplesWritten (Client.buf st1)).
  pose proof (wait_same_client fuel ls (ls + 1) timeout sleep st1) as H2.
  unfold bind at 1.
  destruct (Client.wait code fuel ls (ls + 1) timeout sleep st1)
    as [[[d|]|e|] st2]; cbn [snd] in H2 |- *;
    try (eapply same_client_trans; eassumption).
  unfold bind, Client.last_sample.
  eapply same_client_trans; [exact H1|].
  eapply same_client_trans; [exact H2|].
  eapply same_client_trans; [apply advance_same_client|].
  apply get_data_same_client.
Qed.

End ClientReads.

Lemma wait_returns_what_the_buffer_delivers_witness :
  let out := Client.wait Samples.codes 8 0 1 10 0 Samples.polling_client in
  fst out = Ret (Some [[1065353216]]) /\
  fst (Client.is_streaming Samples.polling_client) = Ret true /\
  ringbuffer.get_data 0 1 (Client.buf (snd out)) = Ret [[1065353216]].
Proof.
  cbv zeta.
  set (out := Client.wait Samples.codes 8 0 1 10 0 Samples.polling_client).
  assert (E : out = (Ret (Some [[1065353216]]), snd out))
    by (vm_compute; reflexivity).
  split; [rewrite E; reflexivity|].
  exact (wait_returns_what_the_buffer_delivers Samples.codes 8 0 1 10 0
           Samples.polling_client (snd out) [[1065353216]] E).
Defined.

Lemma wait_without_time_never_reads_witness :
  Client.wait Samples.codes 8 0 1 0 0 Samples.polling_client
  = (Ret None, Client.advance (Client.advance Samples.polling_client)) /\
  ringbuffer.get_data 0 1
    (Client.buf (Client.advance (Client.advance Samples.polling_client)))
  = Ret [[1065353216]].
Proof.
  split.
  - apply (wait_without_time_never_reads Samples.codes 8 0 1 0 0
             Samples.polling_client).
    + vm_compute. reflexivity.
    + cbn. lia.
    + lia.
  - vm_compute. reflexivity.
Defined.

Lemma wait_returns_witness :
  exists v,
    fst (Client.wait Samples.codes 6 0 1 5 0 Samples.streaming_client) = Ret v.
Proof.
  apply (wait_returns Samples.codes 6 0 1 5 0 Samples.streaming_client).
  - vm_compute. reflexivity.
  - lia.
  - intros k. cbn. lia.
  - lia.
Defined.

(** * Further properties of the worker *)

Section Keeps.
Context {St X : Type} (f : St -> X).

Lemma keeps_ret {A : Type} (a : A) : keeps f (@ret St A a).
Proof. intros st. reflexivity. Qed.

Lemma keeps_lift_res {A : Type} (r : res A) : keeps f (@lift_res St A r).
Proof. intros st. reflexivity. Qed.

Lemma keeps_reads {A : Type} (g : St -> A) : keeps f (reads g).
Proof. intros st. reflexivity. Qed.

Lemma keeps_bind {A B : Type} (m : M St A) (k : A -> M St B) :
  keeps f m -> (forall a, keeps f (k a)) -> keeps f (bind m k).
Proof.
  intros Hm Hk st. unfold bind. specialize (Hm st).
  destruct (m st) as [[a|e|] s1]; cbn [snd] in *.
  - rewrite Hk. exact Hm.
  - exact Hm.
  - exact Hm.
Qed.

End Keeps.

Section WorkerSaves.
Import rdadefs ringbuffer.

Lemma streamer_on_sock_keeps {A X : Type} (f : Streamer.State -> X)
    (m : M socket A) :
  (forall s st, f (Streamer.set_sock s st) = f st) ->
  keeps f (Streamer.on_sock m).
Proof.
  intros H st. unfold Streamer.on_sock.
  destruct (m (Streamer.sock st)) as [r s']. apply H.
Qed.

Lemma get_cmd_keeps {X : Type} (f : Streamer.State -> X) :
  (forall c g st,
     f (Streamer.mk_state (Streamer.sock st) c (Streamer.buf st)
          (Streamer.timelog st) (Streamer.saved st) (Streamer.log st)
          (Streamer.arrivals st) g (Streamer.clock st) (Streamer.n_reads st))
     = f st) ->
  keeps f Streamer.get_cmd.
Proof.
  intros H st. unfold Streamer.get_cmd, Streamer.q_get_nowait.
  cbn [Streamer.q].
  destruct (Streamer.q st ++ Streamer.arrivals st (Streamer.n_gets st));
    cbn [snd]; [apply H|]. unfold Streamer.set_q. cbn. apply H.
Qed.

Lemma put_datablock_keeps_saved (msg : rda_msg_data_full_t) :
  keeps Streamer.saved (Streamer.put_datablock msg).
Proof.
  unfold Streamer.put_datablock.
  repeat first
    [ apply keeps_bind; [|intros ?]
    | apply keeps_lift_res
    | apply keeps_reads
    | (intros st; reflexivity) ].
Qed.

Lemma run_dispatch_keeps_saved (fuel : nat) (hdr : rda_msg_hdr_t) :
  keeps Streamer.saved (Streamer.run_dispatch fuel hdr).
Proof.
  unfold Streamer.run_dispatch.
  destruct (nType hdr =? RDA_FLOAT_MSG);
    [|destruct (nType hdr =? 10000); [|destruct (nType hdr =? RDA_STOP_MSG)]];
    repeat first
      [ apply keeps_bind; [|intros ?]
      | apply put_datablock_keeps_saved
      | apply keeps_reads
      | (apply streamer_on_sock_keeps; intros; reflexivity)
      | (intros st; reflexivity) ].
Qed.

Lemma run_body_keeps_saved (G : list byte) (fuel : nat) :
  keeps Streamer.saved (Streamer.run_body G fuel).
Proof.
  unfold Streamer.run_body.
  apply keeps_bind; [apply streamer_on_sock_keeps; intros; reflexivity|].
  intros bytes.
  apply keeps_bind; [apply keeps_lift_res|]. intros _.
  apply keeps_bind.
  { destruct (rdatools.validate_rda_guid G (hdr_of_bytes bytes));
      intros st; reflexivity. }
  intros _.
  apply keeps_bind; [apply run_dispatch_keeps_saved|]. intros _.
  apply get_cmd_keeps. intros; reflexivity.
Qed.

Lemma run_loop_keeps_saved (G : list byte) :
  forall (fuel : nat) (cmd : option string),
    keeps Streamer.saved (Streamer.run_loop G fuel cmd).
Proof.
  induction fuel as [|fuel IH]; intros cmd.
  - intros st. reflexivity.
  - cbn [Streamer.run_loop]. destruct (Streamer.is_stop cmd).
    + apply keeps_ret.
    + apply keeps_bind; [apply run_body_keeps_saved|]. intros c. apply IH.
Qed.

Lemma execute_cmd_saved (cmd : option string) (st : Streamer.State) :
  let out := Streamer.execute_cmd cmd st in
  fst out = Ret tt /\
  Streamer.timelog (snd out) = Streamer.timelog st /\
  Streamer.sock (snd out) = Streamer.sock st /\
  Streamer.buf (snd out) = Streamer.buf st /\
  Streamer.q (snd out) = Streamer.q st /\
  Streamer.saved (snd out)
  = Streamer.saved st
    ++ match cmd with
       | Some c => if String.eqb c "save_timelog"
                   then [Streamer.timelog st] else []
       | None => []
       end.
Proof.
  cbv zeta. unfold Streamer.execute_cmd.
  destruct cmd as [c|]; [destruct (String.eqb c "save_timelog")|];
    cbn; rewrite ?app_nil_r; repeat split.
Qed.

(** X13: the worker saves its time log only on its way out.  The
    streaming loop never saves it, whatever frames and commands arrive;
    a whole run saves it at most once, which happens only when the run
    ends normally, and what is saved is the time log as the worker
    leaves it. *)
Theorem worker_saves_at_most_once_after_the_loop
    (G : list byte) (fuel : nat) (cmd : option string) (st : Streamer.State) :
  Streamer.saved (snd (Streamer.run_loop G fuel cmd st)) = Streamer.saved st /\
  let out := Streamer.run G fuel st in
  Streamer.saved (snd out) = Streamer.saved st \/
  (fst out = Ret tt /\
   Streamer.saved (snd out) = Streamer.saved st ++ [Streamer.timelog (snd out)]).
Proof.
  split; [apply run_loop_keeps_saved|]. cbv zeta.
  destruct (Streamer.run G fuel st) as [r out] eqn:E. cbn [fst snd].
  unfold Streamer.run in E. unfold bind at 1 in E.
  pose proof (get_cmd_keeps Streamer.saved (fun _ _ _ => eq_refl) st) as H0.
  destruct (Streamer.get_cmd st) as [[c|e|] s0]; cbn [snd] in H0;
    [|injection E as <- <-; left; exact H0
     |injection E as <- <-; left; exact H0].
  unfold bind at 1 in E. unfold Streamer.logging at 1 in E.
  unfold modify at 1 in E.
  set (s1 := Streamer.set_log _ s0) in E.
  assert (H1 : Streamer.saved s1 = Streamer.saved st) by exact H0.
  unfold bind at 1 in E.
  pose proof (run_loop_keeps_saved G fuel c s1) as H2.
  destruct (Streamer.run_loop G fuel c s1) as [[[]|e|] s2]; cbn [snd] in H2;
    [|injection E as <- <-; left; congruence
     |injection E as <- <-; left; congruence].
  unfold Streamer.run_exit in E. unfold bind at 1 in E.
  unfold Streamer.logging at 1 in E. unfold modify at 1 in E.
  set (s3 := Streamer.set_log _ s2) in E.
  assert (H3 : Streamer.saved s3 = Streamer.saved st) by (cbn; congruence).
  unfold bind at 1 in E.
  pose proof (get_cmd_keeps Streamer.saved (fun _ _ _ => eq_refl) s3) as H4.
  destruct (Streamer.get_cmd s3) as [[c'|e|] s4]; cbn [snd] in H4;
    [|injection E as <- <-; left; congruence
     |injection E as <- <-; left; congruence].
  destruct (execute_cmd_saved c' s4) as (Hr & Ht & _ & _ & _ & Hs).
  rewrite E in Hr, Ht, Hs. cbn [fst snd] in Hr, Ht, Hs.
  destruct c' as [name|]; [destruct (String.eqb name "save_timelog")|].
  - right. split; [exact Hr|]. rewrite Hs, Ht. congruence.
  - left. rewrite Hs, app_nil_r. congruence.
  - left. rewrite Hs, app_nil_r. congruence.
Qed.

End WorkerSaves.

Section WorkerFrames.
Import rdadefs ringbuffer.

Lemma get_cmd_returns (st : Streamer.State) :
  exists c st', Streamer.get_cmd st = (Ret c, st').
Proof.
  unfold Streamer.get_cmd, Streamer.q_get_nowait. cbn [Streamer.q].
  destruct (Streamer.q st ++ Streamer.arrivals st (Streamer.n_gets st));
    eexists; eexists; reflexivity.
Qed.

Lemma run_exit_frame (st : Streamer.State) :
  exists st',
    Streamer.run_exit st = (Ret tt, st') /\
    Streamer.sock st' = Streamer.sock st /\
    Streamer.buf st' = Streamer.buf st /\
    Streamer.timelog st' = Streamer.timelog st.
Proof.
  unfold Streamer.run_exit. unfold bind at 1.
  unfold Streamer.logging at 1. unfold modify at 1.
  set (s1 := Streamer.set_log _ st).
  pose proof (get_cmd_keeps Streamer.sock (fun _ _ _ => eq_refl) s1) as Hk1.
  pose proof (get_cmd_keeps Streamer.buf (fun _ _ _ => eq_refl) s1) as Hk2.
  pose proof (get_cmd_keeps Streamer.timelog (fun _ _ _ => eq_refl) s1) as Hk3.
  destruct (get_cmd_returns s1) as (c & s2 & E).
  unfold bind. rewrite E in *. cbn [snd] in Hk1, Hk2, Hk3.
  destruct (execute_cmd_saved c s2) as (Hr & Ht & Hs & Hb & _).
  destruct (Streamer.execute_cmd c s2) as [r s3]. cbn [fst snd] in *.
  subst r. exists s3. split; [reflexivity|].
  rewrite Hs, Hb, Ht, Hk1, Hk2, Hk3. repeat split.
Qed.

(** X14: a worker that finds 'stop' as its first command never touches
    the connection: its run ends normally without reading a single byte
    from the socket, and leaves the buffer and the time log as they
    were. *)
Theorem worker_stopped_at_once_reads_nothing
    (G : list byte) (fuel : nat) (st : Streamer.State) (rest : list string)
    (Hstop : Streamer.q st ++ Streamer.arrivals st (Streamer.n_gets st)
             = "stop" :: rest)
    (Hfuel : (0 < fuel)%nat) :
  exists st',
    Streamer.run G fuel st = (Ret tt, st') /\
    Streamer.sock st' = Streamer.sock st /\
    Streamer.buf st' = Streamer.buf st /\
    Streamer.timelog st' = Streamer.timelog st.
Proof.
  destruct fuel as [|fuel]; [lia|].
  unfold Streamer.run. unfold bind at 1.
  unfold Streamer.get_cmd at 1. unfold Streamer.q_get_nowait.
  cbn [Streamer.q]. rewrite Hstop.
  unfold bind at 1. unfold Streamer.logging at 1. unfold modify at 1.
  unfold bind at 1. rewrite run_loop_stop.
  match goal with
  | |- exists st', Streamer.run_exit ?s = _ /\ _ =>
      destruct (run_exit_frame s) as (st' & E & Hs & Hb & Ht)
  end.
  exists st'. split; [exact E|]. rewrite Hs, Hb, Ht. repeat split.
Qed.

Lemma worker_stopped_at_once_reads_nothing_witness :
  exists st',
    Streamer.run Samples.guid_bytes 1
      (Streamer.init Samples.data_sock ["stop"; "save_timelog"]
         Samples.one_channel (fun _ => []) (fun _ => 0))
    = (Ret tt, st') /\
    Streamer.sock st' = Samples.data_sock.
Proof.
  destruct (worker_stopped_at_once_reads_nothing Samples.guid_bytes 1
              (Streamer.init Samples.data_sock ["stop"; "save_timelog"]
                 Samples.one_channel (fun _ => []) (fun _ => 0))
              ["save_timelog"])
    as (st' & E & Hs & _).
  - reflexivity.
  - lia.
  - exists st'. split; [exact E | exact Hs].
Defined.

Lemma rows_of_shape (n : nat) :
  (0 < n)%nat ->
  forall (fuel : nat) (data : list Z) (k : nat),
    List.length data = (n * k)%nat -> (k <= fuel)%nat ->
    List.length (Streamer.rows_of fuel n data) = k /\
    Forall (fun r => List.length r = n) (Streamer.rows_of fuel n data) /\
    List.concat (Streamer.rows_of fuel n data) = data.
Proof.
  intros Hn. induction fuel as [|fuel IH]; intros data k Hl Hk.
  - assert (k = O) by lia. subst k. rewrite Nat.mul_0_r in Hl.
    destruct data; [|discriminate Hl]. cbn. repeat split. constructor.
  - cbn [Streamer.rows_of]. destruct data as [|x data'].
    + cbn [List.length] in Hl. assert (k = O) by nia. subst k.
      cbn. repeat split. constructor.
    + remember (x :: data') as data eqn:Ed.
      destruct k as [|k].
      { rewrite Nat.mul_0_r in Hl. rewrite Ed in Hl. discriminate Hl. }
      destruct (IH (skipn n data) k) as (H1 & H2 & H3).
      { rewrite length_skipn. nia. }
      { lia. }
      cbn [List.length List.concat]. split; [lia|]. split.
      * constructor; [|exact H2]. rewrite length_firstn. nia.
      * rewrite H3. apply firstn_skipn.
Qed.

Lemma put_datablock_rows
    (msg : rda_msg_data_full_t) (st : Streamer.State)
    (Hch : 0 < nChannels (Streamer.buf st))
    (Hfit : block_fits (nChannels (Streamer.buf st)) msg) :
  exists block st',
    Streamer.put_datablock msg st = (Ret tt, st') /\
    rows (Streamer.buf st') = rows (Streamer.buf st) ++ block /\
    len block = nPoints msg /\
    Forall (fun r => len r = nChannels (Streamer.buf st)) block /\
    List.concat block
    = Streamer.frombuffer (List.length (fData msg)) (fData msg) /\
    nSamplesWritten (Streamer.buf st')
    = nSamplesWritten (Streamer.buf st) + nPoints msg.
Proof.
  destruct Hfit as [Hp Hf]. unfold sizeof_c_float in Hf.
  set (nCh := nChannels (Streamer.buf st)) in *.
  set (data := Streamer.frombuffer (List.length (fData msg)) (fData msg)).
  assert (Hd : List.length data = Z.to_nat (nCh * nPoints msg)).
  { unfold data. apply frombuffer_length; unfold len in *; lia. }
  destruct (rows_of_shape (Z.to_nat nCh) ltac:(lia) (List.length data) data
              (Z.to_nat (nPoints msg))) as (H1 & H2 & H3).
  { rewrite Hd. rewrite Z2Nat.inj_mul by lia. reflexivity. }
  { rewrite Hd. rewrite Z2Nat.inj_mul by lia. nia. }
  exists (Streamer.rows_of (List.length data) (Z.to_nat nCh) data).
  unfold Streamer.put_datablock. fold data.
  unfold bind at 1. unfold reads at 1. fold nCh.
  unfold bind at 1. unfold lift_res at 1. unfold Streamer.reshape.
  destruct (Z.leb_spec nCh 0) as [Hle|_]; [lia|].
  replace (len data mod nCh) with 0.
  2:{ unfold len. rewrite Hd, Z2Nat.id by lia.
      rewrite Z.mul_comm, Z_mod_mult. reflexivity. }
  cbn [Z.eqb negb].
  eexists. split; [reflexivity|]. cbn.
  split; [reflexivity|]. split; [unfold len; lia|]. split.
  - eapply Forall_impl; [|exact H2]. cbn. intros r Hr. unfold len. lia.
  - split; [exact H3|]. unfold nSamplesWritten. cbn.
    rewrite len_app. unfold len. lia.
Qed.

(** X15: putting a data block that fits the buffer's channel count
    succeeds and appends to the buffer exactly the block's samples, in
    order, as [nPoints] rows of [nChannels] values each, so that the
    sample counter advances by [nPoints]. *)
Theorem put_datablock_appends_rows
    (msg : rda_msg_data_full_t) (st : Streamer.State)
    (Hch : 0 < nChannels (Streamer.buf st))
    (Hfit : block_fits (nChannels (Streamer.buf st)) msg) :
  exists block st',
    Streamer.put_datablock msg st = (Ret tt, st') /\
    rows (Streamer.buf st') = rows (Streamer.buf st) ++ block /\
    len block = nPoints msg /\
    Forall (fun r => len r = nChannels (Streamer.buf st)) block /\
    List.concat block
    = Streamer.frombuffer (List.length (fData msg)) (fData msg) /\
    nSamplesWritten (Streamer.buf st')
    = nSamplesWritten (Streamer.buf st) + nPoints msg.
Proof.
  destruct (put_datablock_rows msg st Hch Hfit)
    as (block & st' & E & Hr & Hl & Hf & Hc & Hn).
  exists block, st'. split; [exact E|]. split; [exact Hr|].
  split; [exact Hl|]. split; [exact Hf|]. split; [exact Hc | exact Hn].
Qed.

Lemma put_datablock_appends_rows_witness :
  let out := Streamer.put_datablock Samples.data_msg Samples.idle_streamer in
  fst out = Ret tt /\
  rows (Streamer.buf (snd out)) = [[1065353216]; [1073741824]] /\
  nSamplesWritten (Streamer.buf (snd out)) = 2.
Proof.
  cbv zeta.
  destruct (put_datablock_appends_rows Samples.data_msg Samples.idle_streamer)
    as (block & st' & E & _ & _ & _ & _ & Hn).
  - cbn. lia.
  - split; cbn; lia.
  - rewrite E. cbn [fst snd]. split; [reflexivity|].
    assert (Est : st' = snd (Streamer.put_datablock Samples.data_msg
                               Samples.idle_streamer))
      by (rewrite E; reflexivity).
    split; [rewrite Est; vm_compute; reflexivity | exact Hn].
Defined.

End WorkerFrames.

Section SkippedFrames.
Import rdadefs ringbuffer.

Lemma recv_stream (k : Z) (s : socket) :
  0 <= k ->
  exists s',
    recv k s = (Ret tt, s') /\
    List.concat s'
    = skipn (Z.to_nat (Z.min k (first_len s))) (List.concat s).
Proof.
  intros Hk. unfold recv. destruct (Z.ltb_spec k 0) as [Hlt|_]; [lia|].
  unfold bind. destruct s as [|c rest].
  - exists []. split; [reflexivity|]. cbn [List.concat]. rewrite skipn_nil.
    reflexivity.
  - cbn [recv_into first_len List.concat]. pose proof (len_nonneg c) as Hc.
    destruct (Z.leb_spec (len c) k) as [Hle|Hgt].
    + exists rest. split; [reflexivity|].
      rewrite Z.min_r by lia. rewrite skipn_app.
      rewrite (skipn_all2 c) by (unfold len; lia).
      replace (Z.to_nat (len c) - List.length c)%nat with O
        by (unfold len; lia).
      reflexivity.
    + exists (skipn (Z.to_nat k) c :: rest). split; [reflexivity|].
      rewrite Z.min_l by lia. cbn [List.concat]. rewrite skipn_app.
      replace (Z.to_nat k - List.length c)%nat with O by (unfold len in *; lia).
      reflexivity.
Qed.

(** X16: a frame that is skipped is discarded with a single receive.
    In the worker (frame types other than data and stop) and in the
    handshake (frame types other than start), the bytes removed from the
    stream are the declared body length or the next segment, whichever
    is shorter: a body that arrives in several segments is only partly
    discarded.  Nothing else changes but the log, and the handshake
    loop is left exactly for a data frame with a cached start
    message. *)
Theorem skipped_frame_is_one_receive
    (fuel : nat) (hdrW hdrC : rda_msg_hdr_t)
    (w : Streamer.State) (c : Client.State)
    (HtypeW : nType hdrW <> RDA_FLOAT_MSG /\ nType hdrW <> RDA_STOP_MSG)
    (HtypeC : nType hdrC <> RDA_START_MSG)
    (HsizeW : sizeof_hdr <= nSize hdrW)
    (HsizeC : sizeof_hdr <= nSize hdrC) :
  (exists w',
     Streamer.run_dispatch fuel hdrW w = (Ret tt, w') /\
     List.concat (Streamer.sock w')
     = skipn (Z.to_nat (Z.min (nSize hdrW - sizeof_hdr)
                          (first_len (Streamer.sock w))))
         (List.concat (Streamer.sock w)) /\
     Streamer.buf w' = Streamer.buf w /\
     Streamer.timelog w' = Streamer.timelog w /\
     Streamer.q w' = Streamer.q w) /\
  (exists c',
     Client.handshake_dispatch fuel hdrC c
     = (Ret ((nType hdrC =? RDA_FLOAT_MSG)
             && match Client.start_msg c with Some _ => true | None => false end),
        c') /\
     List.concat (Client.sock c')
     = skipn (Z.to_nat (Z.min (nSize hdrC - sizeof_hdr)
                          (first_len (Client.sock c))))
         (List.concat (Client.sock c)) /\
     Client.start_msg c' = Client.start_msg c /\
     Client.buf c' = Client.buf c).
Proof.
  split.
  - destruct HtypeW as [H4 H3]. unfold Streamer.run_dispatch.
    destruct (Z.eqb_spec (nType hdrW) RDA_FLOAT_MSG) as [E|_]; [contradiction|].
    destruct (recv_stream (nSize hdrW - sizeof_hdr) (Streamer.sock w))
      as (s' & Er & Hs'); [lia|].
    destruct (Z.eqb_spec (nType hdrW) 10000) as [_|_].
    + unfold Streamer.on_sock. rewrite Er.
      eexists. split; [reflexivity|]. cbn. repeat split. exact Hs'.
    + destruct (Z.eqb_spec (nType hdrW) RDA_STOP_MSG) as [E|_]; [contradiction|].
      unfold bind, Streamer.on_sock. rewrite Er.
      eexists. split; [reflexivity|]. cbn. repeat split. exact Hs'.
  - unfold Client.handshake_dispatch. unfold bind at 1. unfold reads at 1.
    destruct (Z.eqb_spec (nType hdrC) RDA_START_MSG) as [E|_]; [contradiction|].
    destruct (recv_stream (nSize hdrC - sizeof_hdr) (Client.sock c))
      as (s' & Er & Hs'); [lia|].
    destruct ((nType hdrC =? RDA_FLOAT_MSG)
              && match Client.start_msg c with Some _ => true | None => false end);
      unfold bind, Client.on_sock; rewrite Er;
      eexists; (split; [reflexivity|]); cbn; repeat split; exact Hs'.
Qed.

Lemma skipped_frame_is_one_receive_witness :
  let hdr := {| guid := Samples.guid_bytes; nSize := 30; nType := 10000 |} in
  let w := Streamer.init [[x01; x02]; [x03; x04; x05; x06]] []
             Samples.one_channel (fun _ => []) (fun _ => 0) in
  let c := Client.init 1000 10 [[x01; x02]; [x03; x04; x05; x06]] 0
             Samples.quiet in
  Streamer.sock (snd (Streamer.run_dispatch 1 hdr w)) = [[x03; x04; x05; x06]] /\
  fst (Client.handshake_dispatch 1 hdr c) = Ret false /\
  Client.sock (snd (Client.handshake_dispatch 1 hdr c)) = [[x03; x04; x05; x06]] /\
  (exists w', Streamer.run_dispatch 1 hdr w = (Ret tt, w')) /\
  (exists c', Client.handshake_dispatch 1 hdr c = (Ret false, c')).
Proof.
  cbv zeta.
  destruct (skipped_frame_is_one_receive 1
              {| guid := Samples.guid_bytes; nSize := 30; nType := 10000 |}
              {| guid := Samples.guid_bytes; nSize := 30; nType := 10000 |}
              (Streamer.init [[x01; x02]; [x03; x04; x05; x06]] []
                 Samples.one_channel (fun _ => []) (fun _ => 0))
              (Client.init 1000 10 [[x01; x02]; [x03; x04; x05; x06]] 0
                 Samples.quiet))
    as [(w' & Ew & _) (c' & Ec & _)].
  - split; discriminate.
  - discriminate.
  - vm_compute. discriminate.
  - vm_compute. discriminate.
  - split; [vm_compute; reflexivity|]. split; [vm_compute; reflexivity|].
    split; [vm_compute; reflexivity|]. split.
    + exists w'. exact Ew.
    + exists c'. exact Ec.
Defined.

End SkippedFrames.

Section WorkerDataFrame.
Import rdadefs ringbuffer.

(** X17: the worker's handling of a data frame, end to end.  When the
    frame body is on the socket (fixed part in one segment) and fits the
    buffer's channel count, the dispatch returns normally: the socket
    is left just after the frame, the frame's samples are appended to
    the buffer as [nPoints] rows of [nChannels] values, in stream order,
    and one clock reading is appended to the time log. *)
Theorem worker_stores_data_frame
    (fuel : nat) (hdr : rda_msg_hdr_t) (st : Streamer.State)
    (c0 : list byte) (rest : socket)
    (Htype : nType hdr = RDA_FLOAT_MSG)
    (Hsock : Streamer.sock st = c0 :: rest)
    (Hch : 0 < nChannels (Streamer.buf st))
    (Hfixed : sizeof_data - sizeof_hdr <= len c0)
    (Hpts : 0 <= le_int32 (skipn 4 c0))
    (Hsize : sizeof_data
             + nChannels (Streamer.buf st) * le_int32 (skipn 4 c0) * 4
             <= nSize hdr)
    (Hbody : nSize hdr - sizeof_hdr <= total_len (c0 :: rest))
    (Hfuel : (List.length (c0 :: rest) < fuel)%nat) :
  let bytes := List.concat (c0 :: rest) in
  let nCh := nChannels (Streamer.buf st) in
  let nPts := le_int32 (skipn 4 c0) in
  let samples := slice 8 (8 + nCh * nPts * 4) bytes in
  exists block st',
    Streamer.run_dispatch fuel hdr st = (Ret tt, st') /\
    List.concat (Streamer.sock st')
    = skipn (Z.to_nat (nSize hdr - 24)) bytes /\
    rows (Streamer.buf st') = rows (Streamer.buf st) ++ block /\
    len block = nPts /\
    Forall (fun r => len r = nCh) block /\
    List.concat block = Streamer.frombuffer (List.length samples) samples /\
    Streamer.timelog st'
    = Streamer.deque_append Streamer.timelog_maxlen
        (Streamer.clock st (Streamer.n_reads st)) (Streamer.timelog st).
Proof.
  cbv zeta.
  set (nCh := nChannels (Streamer.buf st)) in *.
  set (nPts := le_int32 (skipn 4 c0)) in *.
  set (bytes := List.concat (c0 :: rest)).
  assert (Hprod : 0 <= nCh * nPts) by nia.
  destruct (rda_read_data_msg_stream fuel hdr nCh c0 rest
              Hfixed Hprod Hsize Hbody Hfuel) as (s' & Er & Hs').
  cbv zeta in Er, Hs'. fold bytes nPts in Er, Hs'.
  set (msg := {| data_hdr := hdr; nBlock := le_int32 c0; nPoints := nPts;
                 fData := slice 8 (8 + nCh * nPts * 4) bytes;
                 markers := slice (8 + nCh * nPts * 4) (nSize hdr - 24) bytes |})
    in *.
  set (st1 := Streamer.set_sock s' st).
  assert (Hfit : block_fits (nChannels (Streamer.buf st1)) msg).
  { unfold block_fits, sizeof_c_float. cbn [nPoints fData msg].
    split; [exact Hpts|]. change (nChannels (Streamer.buf st1)) with nCh.
    unfold sizeof_data, sizeof_hdr in *.
    rewrite len_slice; [lia | lia |].
    unfold bytes. rewrite len_concat_total. lia. }
  destruct (put_datablock_rows msg st1 Hch Hfit)
    as (block & st' & Ep & Hr & Hl & Hf & Hc & _).
  destruct (put_datablock_fits msg st1 Hch Hfit) as (st'' & Ep' & Ht & _).
  rewrite Ep in Ep'. injection Ep' as <-.
  exists block, st'.
  unfold Streamer.run_dispatch. rewrite Htype, Z.eqb_refl.
  unfold bind at 1. unfold reads at 1. fold nCh.
  unfold bind at 1. unfold Streamer.on_sock. rewrite Hsock, Er.
  fold st1. rewrite Ep. split; [reflexivity|].
  assert (Hsk : Streamer.sock st' = s').
  { clear - Ep. unfold Streamer.put_datablock in Ep.
    unfold bind, reads, lift_res in Ep.
    destruct (Streamer.reshape _ _) as [b| |]; try discriminate Ep.
    injection Ep as <-. reflexivity. }
  rewrite Hsk. split; [exact Hs'|]. split; [exact Hr|].
  split; [exact Hl|]. split; [exact Hf|]. split; [exact Hc | exact Ht].
Qed.

Lemma worker_stores_data_frame_witness :
  exists block st',
    Streamer.run_dispatch 4 Samples.data_hdr_43
      (Streamer.set_sock Samples.data_sock Samples.idle_streamer)
    = (Ret tt, st') /\
    List.concat (Streamer.sock st') = [] /\
    rows (Streamer.buf st') = block /\
    len block = 2 /\
    Streamer.timelog st' = [100].
Proof.
  destruct (worker_stores_data_frame 4 Samples.data_hdr_43
              (Streamer.set_sock Samples.data_sock Samples.idle_streamer)
              Samples.data_fixed (tl Samples.data_sock))
    as (block & st' & E & Hs & Hr & Hl & _ & _ & Ht);
    try reflexivity; try (cbn; lia).
  exists block, st'. split; [exact E|]. split; [exact Hs|].
  split; [exact Hr|]. split; [exact Hl | exact Ht].
Defined.

End WorkerDataFrame.

Section FatalReads.
Import rdadefs ringbuffer.

(** X18: a short or zero-length header read is fatal to the worker.
    When the worker's first command is not 'stop' and the connection is
    closed, or its next segment holds fewer than 24 bytes, the run ends
    by raising in its first pass through the loop: no further command
    is taken from the queue after the one read at start-up, the time
    log is not saved, and buffer and time log stay as they were. *)
Theorem worker_dies_on_short_header
    (G : list byte) (fuel : nat) (st : Streamer.State)
    (Hcmd : forall rest,
        Streamer.q st ++ Streamer.arrivals st (Streamer.n_gets st)
        <> "stop" :: rest)
    (Hshort : short_read sizeof_hdr (Streamer.sock st))
    (Hfuel : (0 < fuel)%nat) :
  exists st',
    Streamer.run G fuel st = (Raise TypeError, st') /\
    Streamer.n_gets st' = S (Streamer.n_gets st) /\
    Streamer.saved st' = Streamer.saved st /\
    Streamer.buf st' = Streamer.buf st /\
    Streamer.timelog st' = Streamer.timelog st.
Proof.
  destruct fuel as [|fuel]; [lia|].
  unfold Streamer.run. unfold bind at 1.
  unfold Streamer.get_cmd at 1. unfold Streamer.q_get_nowait.
  cbn [Streamer.q].
  destruct (recv_into_short sizeof_hdr (Streamer.sock st)) as (c & Er & Hc);
    [unfold sizeof_hdr; lia | exact Hshort |].
  assert (Hbody : forall s0 : Streamer.State,
             Streamer.sock s0 = Streamer.sock st ->
             exists s1, Streamer.run_body G (S fuel) s0 = (Raise TypeError, s1) /\
                        s1 = Streamer.set_sock (tl (Streamer.sock st)) s0).
  { intros s0 Hs0. unfold Streamer.run_body. unfold bind at 1.
    unfold Streamer.on_sock at 1. rewrite Hs0, Er.
    unfold bind at 1. unfold lift_res, rdatools.check_received.
    destruct (Z.eqb_spec (len c) sizeof_hdr) as [Heq|_]; [lia|].
    eexists. split; reflexivity. }
  destruct (Streamer.q st ++ Streamer.arrivals st (Streamer.n_gets st))
    as [|x rest] eqn:Eq.
  - unfold bind at 1. unfold Streamer.logging at 1. unfold modify at 1.
    unfold bind at 1. cbn [Streamer.run_loop Streamer.is_stop].
    unfold bind at 1.
    match goal with
    | |- context [Streamer.run_body G (S fuel) ?s] =>
        destruct (Hbody s eq_refl) as (s1 & -> & ->)
    end.
    eexists. split; [reflexivity|]. cbn. repeat split.
  - assert (Hx : String.eqb x "stop" = false).
    { destruct (String.eqb x "stop") eqn:E; [|reflexivity].
      apply String.eqb_eq in E. subst x. exfalso. exact (Hcmd rest eq_refl). }
    unfold bind at 1. unfold Streamer.logging at 1. unfold modify at 1.
    unfold bind at 1. cbn [Streamer.run_loop Streamer.is_stop]. rewrite Hx.
    unfold bind at 1.
    match goal with
    | |- context [Streamer.run_body G (S fuel) ?s] =>
        destruct (Hbody s eq_refl) as (s1 & -> & ->)
    end.
    eexists. split; [reflexivity|]. cbn. repeat split.
Qed.

Lemma worker_dies_on_short_header_witness :
  exists st',
    Streamer.run Samples.guid_bytes 4
      (Streamer.init [] ["save_timelog"] Samples.one_channel
         (fun _ => []) (fun _ => 0))
    = (Raise TypeError, st') /\
    Streamer.saved st' = [].
Proof.
  destruct (worker_dies_on_short_header Samples.guid_bytes 4
              (Streamer.init [] ["save_timelog"] Samples.one_channel
                 (fun _ => []) (fun _ => 0)))
    as (st' & E & _ & Hs & _).
  - intros rest. cbn. discriminate.
  - exact I.
  - lia.
  - exists st'. split; [exact E | exact Hs].
Defined.

Lemma client_on_sock_keeps {A X : Type} (f : Client.State -> X)
    (m : M socket A) :
  (forall s st, f (Client.set_sock s st) = f st) ->
  keeps f (Client.on_sock m).
Proof.
  intros H st. unfold Client.on_sock.
  destruct (m (Client.sock st)) as [r s']. apply H.
Qed.

Lemma handshake_body_keeps_worker (G : list byte) (fuel : nat) :
  keeps worker_handle (Client.handshake_body G fuel).
Proof.
  unfold Client.handshake_body.
  apply keeps_bind; [apply client_on_sock_keeps; intros; reflexivity|].
  intros bytes.
  apply keeps_bind; [apply keeps_lift_res|]. intros _.
  apply keeps_bind.
  { destruct (rdatools.validate_rda_guid G (hdr_of_bytes bytes));
      intros st; reflexivity. }
  intros _. unfold Client.handshake_dispatch.
  apply keeps_bind; [apply keeps_reads|]. intros cached.
  destruct (nType (hdr_of_bytes bytes) =? RDA_START_MSG);
    [|destruct ((nType (hdr_of_bytes bytes) =? RDA_FLOAT_MSG) && _)];
    repeat first
      [ apply keeps_bind; [|intros ?]
      | (apply client_on_sock_keeps; intros; reflexivity)
      | (intros st; reflexivity) ].
Qed.

Lemma handshake_loop_keeps_worker (G : list byte) (timeout then_ : Z) :
  forall (fuel : nat) (now : Z),
    keeps worker_handle (Client.handshake_loop G fuel timeout then_ now).
Proof.
  induction fuel as [|fuel IH]; intros now.
  - intros st. reflexivity.
  - cbn [Client.handshake_loop].
    destruct (now - then_ <? timeout); [|apply keeps_ret].
    apply keeps_bind; [apply handshake_body_keeps_worker|].
    intros [|]; [apply keeps_ret|].
    apply keeps_bind; [intros st; reflexivity|]. intros now'. apply IH.
Qed.

Lemma await_start_keeps_worker (G : list byte) (fuel : nat) (timeout : Z) :
  keeps worker_handle (Client.await_start G fuel timeout).
Proof.
  unfold Client.await_start.
  apply keeps_bind; [intros st; reflexivity|]. intros _.
  apply keeps_bind; [intros st; reflexivity|]. intros then_.
  apply keeps_bind; [intros st; reflexivity|]. intros now.
  apply handshake_loop_keeps_worker.
Qed.

(** X19: when the timeout elapses without a start message and without
    a resume on a client that has no initialized buffer and no cached
    start message, [start_streaming] fails after the loop with an
    AttributeError, raised on the missing start message: no timeout
    error is raised, the buffer stays uninitialized and no worker is
    spawned. *)
Theorem start_streaming_timeout_on_fresh_client
    (G : list byte) (fuel : nat) (timeout : Z) (st st1 : Client.State)
    (Hidle : fst (Client.is_streaming st) = Ret false)
    (Hexpired : Client.await_start G fuel timeout st = (Ret Client.Expired, st1))
    (Huninit : is_initialized (Client.buf st1) = false)
    (Hnone : Client.start_msg st1 = None) :
  exists st',
    Client.start_streaming G fuel timeout st = (Raise AttributeError, st') /\
    fst (Client.is_streaming st') = Ret false /\
    is_initialized (Client.buf st') = false /\
    Client.start_msg st' = None.
Proof.
  unfold Client.start_streaming. unfold bind at 1.
  rewrite is_streaming_value in Hidle. cbn [fst] in Hidle.
  injection Hidle as Hidle. rewrite is_streaming_value, Hidle.
  pose proof (await_start_keeps_worker G fuel timeout st) as Hk.
  rewrite Hexpired in Hk. cbn [snd] in Hk. unfold worker_handle in Hk.
  injection Hk as Hs Ha.
  unfold bind. rewrite Hexpired.
  unfold Client.finish_start, bind, get. rewrite Huninit. cbn [negb].
  unfold Client.logging at 1. unfold modify at 1.
  cbn [Client.start_msg Client.set_log]. rewrite Hnone.
  eexists. split; [reflexivity|]. rewrite is_streaming_value. cbn.
  rewrite Hs, Ha, Hidle. repeat split; assumption.
Qed.

Lemma start_streaming_timeout_on_fresh_client_witness :
  exists st',
    Client.start_streaming Samples.guid_bytes 4 0 Samples.fresh_client
    = (Raise AttributeError, st') /\
    fst (Client.is_streaming st') = Ret false /\
    Client.sock st' = Client.sock Samples.fresh_client.
Proof.
  destruct (start_streaming_timeout_on_fresh_client Samples.guid_bytes 4 0
              Samples.fresh_client
              (snd (Client.await_start Samples.guid_bytes 4 0
                      Samples.fresh_client)))
    as (st' & E & Hs & _).
  - reflexivity.
  - vm_compute. reflexivity.
  - reflexivity.
  - reflexivity.
  - exists st'. split; [exact E|]. split; [exact Hs|].
    assert (Est : st' = snd (Client.start_streaming Samples.guid_bytes 4 0
                               Samples.fresh_client))
      by (rewrite E; reflexivity).
    rewrite Est. vm_compute. reflexivity.
Defined.

End FatalReads.

Section FailedStart.
Import rdadefs ringbuffer.

Lemma finish_start_failure_keeps_worker (st st' : Client.State)
    (r : res unit) :
  Client.finish_start st = (r, st') -> r <> Ret tt ->
  worker_handle st' = worker_handle st.
Proof.
  destruct (is_initialized (Client.buf st)) eqn:Hinit.
  - rewrite finish_start_initialized by exact Hinit.
    intros [= <- <-] H. exfalso. apply H. reflexivity.
  - destruct (Client.start_msg st) as [m|] eqn:Hm.
    + destruct (finish_start_cached st m Hinit Hm) as (s & -> & _).
      intros [= <- <-] H. exfalso. apply H. reflexivity.
    + unfold Client.finish_start, bind, get. rewrite Hinit.
      cbn [negb]. unfold Client.logging at 1. unfold modify at 1.
      cbn [Client.start_msg Client.set_log]. rewrite Hm.
      intros [= <- <-] _. reflexivity.
Qed.

(** X20: a [start_streaming] that does not return normally spawns
    nothing.  Whether it raises because the client is already
    streaming, because a read fails during the handshake, or after the
    loop, and also while it is still waiting, the client's worker
    object and its liveness are what they were before the call. *)
Theorem failed_start_streaming_spawns_nothing
    (G : list byte) (fuel : nat) (timeout : Z) (st : Client.State)
    (Hfail : fst (Client.start_streaming G fuel timeout st) <> Ret tt) :
  worker_handle (snd (Client.start_streaming G fuel timeout st))
  = worker_handle st /\
  fst (Client.is_streaming (snd (Client.start_streaming G fuel timeout st)))
  = fst (Client.is_streaming st).
Proof.
  assert (H : worker_handle (snd (Client.start_streaming G fuel timeout st))
              = worker_handle st).
  { revert Hfail. unfold Client.start_streaming. unfold bind at 1 3.
    rewrite is_streaming_value.
    destruct (match Client.streamer st with
              | Some _ => Client.streamer_alive st | None => false end);
      [reflexivity|].
    pose proof (await_start_keeps_worker G fuel timeout st) as Hk.
    unfold bind.
    destruct (Client.await_start G fuel timeout st) as [[e|x|] st1];
      cbn [snd] in Hk; try (intros _; exact Hk).
    destruct (Client.finish_start st1) as [r st'] eqn:Ef. cbn [fst snd].
    intros Hr. rewrite (finish_start_failure_keeps_worker st1 st' r Ef Hr).
    exact Hk. }
  split; [exact H|]. rewrite !is_streaming_value. cbn [fst].
  unfold worker_handle in H. injection H as -> ->. reflexivity.
Qed.

Lemma failed_start_streaming_spawns_nothing_witness :
  fst (Client.start_streaming Samples.guid_bytes 4 10
         (Client.init 1000 10 [] 0 Samples.quiet)) = Raise TypeError /\
  fst (Client.is_streaming
         (snd (Client.start_streaming Samples.guid_bytes 4 10
                 (Client.init 1000 10 [] 0 Samples.quiet)))) = Ret false.
Proof.
  split; [vm_compute; reflexivity|].
  destruct (failed_start_streaming_spawns_nothing Samples.guid_bytes 4 10
              (Client.init 1000 10 [] 0 Samples.quiet)) as [_ H].
  - vm_compute. discriminate.
  - rewrite H. reflexivity.
Defined.

End FailedStart.
